(** * canvas-renderer: the TextGraphics and rectangle box painters

    A shallow embedding of [src/TextGraphics/index.ts] (the full preset,
    [TextGraphics]) and of the earlier minimal preset ([rectangle]).

    Modelling conventions.
    - A JavaScript number is an exact rational ([Qc]); rounding, [Infinity]
      and [NaN] of IEEE doubles are outside the model, except where the
      source tests [isNaN] (there a number is an [option], [None] = NaN) and
      where a run of digits is read as a number (it is rounded to the
      nearest double).
    - A text line is the list of its UTF-16 code units; [.length] counts
      code units and [for (const char of str)] walks code points, as in
      JavaScript.
    - Style strings (colours, font names, image sources) are [string]s; the
      empty string is falsy.
    - The 2D context is a log of the calls made on it, in order; a canvas is
      its assigned width and height with that log.  Angles are kept as
      rational multiples of [Math.PI].  The context throws where the canvas
      API does on the values of the model: IndexSizeError on an arc of
      negative radius and on a gradient stop outside 0..1, SyntaxError on a
      gradient stop whose colour does not parse; the exception rejects the
      call that made it.
    - An [async] function returns [inl e] when its promise rejects with [e]
      and [inr v] when it resolves to [v]. *)

From Stdlib Require Import List String Ascii ZArith NArith QArith Qcanon Bool Lia.
From Stdlib Require Import Permutation Field Sorted DecimalString DecimalNat.
Import ListNotations.

Local Open Scope Qc_scope.

(** ** Numbers *)

Abbreviation number := Qc (only parsing).

Definition num_of_Z (z : Z) : number := Q2Qc (inject_Z z).
Definition num_of_nat (n : nat) : number := num_of_Z (Z.of_nat n).

(** [0.5] *)
Definition half : number := Q2Qc (1 # 2).
Definition two : number := num_of_Z 2.
Definition four : number := num_of_Z 4.
Definition twelve : number := num_of_Z 12.
Definition hundred : number := num_of_Z 100.
(** [PI * 1.5] and [PI * 0.5], in units of [Math.PI] *)
Definition one_and_half : number := Q2Qc (3 # 2).

(** ToBoolean on a number: [0] is falsy. *)
Definition truthy (x : number) : bool := negb (Qc_eq_bool x 0).

(** [x > y] *)
Definition gtb (x y : number) : bool :=
  match x ?= y with Gt => true | _ => false end.

(** [x < y] *)
Definition ltb (x y : number) : bool :=
  match x ?= y with Lt => true | _ => false end.

(** ToBoolean on a string: the empty string is falsy. *)
Definition truthy_str (s : string) : bool :=
  match s with EmptyString => false | _ => true end.

(** ToBoolean on an optional string ([undefined] is falsy). *)
Definition truthy_ostr (s : option string) : bool :=
  match s with Some s => truthy_str s | None => false end.

(** Destructuring default: [const { f = d } = obj]. *)
Definition dflt {A : Type} (o : option A) (d : A) : A :=
  match o with Some a => a | None => d end.

(** ** Text lines as UTF-16 code units *)

Definition jsstring := list N.

Definition length (s : jsstring) : nat := List.length s.

Definition is_high_surrogate (u : N) : bool := ((55296 <=? u) && (u <=? 56319))%N.
Definition is_low_surrogate (u : N) : bool := ((56320 <=? u) && (u <=? 57343))%N.

(** The string iterator behind [for (const char of str)]: a high surrogate
    followed by a low surrogate is one character of two code units, any
    other code unit is a character of its own. *)
Fixpoint chars (s : jsstring) : list jsstring :=
  match s with
  | [] => []
  | u :: rest =>
      match rest with
      | l :: rest' =>
          if is_high_surrogate u && is_low_surrogate l
          then [u; l] :: chars rest'
          else [u] :: chars rest
      | [] => [[u]]
      end
  end.

(** [char.charCodeAt(0)], for a character produced by [chars]. *)
Definition charCodeAt0 (char : jsstring) : N :=
  match char with u :: _ => u | [] => 0%N end.

(** ToBoolean on a line. *)
Definition truthy_line (s : jsstring) : bool :=
  match s with [] => false | _ => true end.

(** An ASCII literal as a line. *)
Fixpoint line_of_string (s : string) : jsstring :=
  match s with
  | EmptyString => []
  | String a r => N_of_ascii a :: line_of_string r
  end.

(** [Array.prototype.reduce] without an initial value; [None] is the
    TypeError on an empty array. *)
Definition reduce {A : Type} (f : A -> A -> A) (l : list A) : option A :=
  match l with
  | [] => None
  | x :: xs => Some (fold_left f xs x)
  end.

(** ** The character-width model of the full preset *)

(** [get_char_width] *)
Definition get_char_width (char : jsstring) : number :=
  if ((charCodeAt0 char <? 128) && (0 <=? charCodeAt0 char))%N then half else 1.

(** [get_string_width] *)
Definition get_string_width (str : jsstring) : number :=
  fold_left (fun width char =>
               width + (if ((charCodeAt0 char <? 128) && (0 <=? charCodeAt0 char))%N
                        then half else 1))
            (chars str) 0.

(** ** Data model *)

Inductive TextAlign := AlignLeft | AlignCenter | AlignRight.

(** [number | [number, number] | [number, number, number, number]] *)
Inductive Padding :=
| Pad1 (p : number)
| Pad2 (p0 p1 : number)
| Pad4 (p0 p1 p2 p3 : number).

(** [number | [number, number, number, number]] *)
Inductive Radius :=
| Rad1 (r : number)
| Rad4 (r0 r1 r2 r3 : number).

Record FontStyle := {
  fs_style : option string;
  fs_variant : option string;
  fs_weight : option string;
  fs_size : option number;
  fs_lineHeight : option number;
  fs_family : option string;
  fs_color : option string;
  fs_padding : option Padding;
  fs_rowGap : option number;
  fs_textAlign : option TextAlign;
  fs_letterSpacing : option number;
  fs_borderColor : option string;
  fs_borderWidth : option number
}.

Record BorderStyle := {
  bs_color : option string;
  bs_width : option number;
  bs_radius : option Radius
}.

(** A [LinearGradient] object: its own properties in insertion order, the
    keys pairwise distinct. *)
Definition LinearGradient := list (number * string).

Inductive BackgroundColor :=
| Solid (c : string)
| Gradient (g : LinearGradient).

Inductive BackgroundSize :=
| Size1 (s : string)
| Size2 (w h : string).

Inductive BackgroundPosition :=
| Pos1 (p : number)
| Pos2 (x y : number).

Record BackgroundStyle := {
  bg_color : option BackgroundColor;
  bg_image : option string;
  bg_size : option BackgroundSize;
  bg_position : option BackgroundPosition
}.

(** [string | string[]] *)
Inductive Content :=
| Str (s : jsstring)
| Arr (lines : list jsstring).

(** [number | 'auto'] *)
Inductive Dimension :=
| Px (n : number)
| Auto.

Record TextGraphicsOptions := {
  content : option Content;
  borderStyle : option BorderStyle;
  backgroundStyle : option BackgroundStyle;
  fontStyle : option FontStyle;
  width : option Dimension;
  height : option Dimension
}.

(** The empty object [{}] of each style. *)
Definition no_font : FontStyle :=
  Build_FontStyle None None None None None None None None None None None None None.
Definition no_border : BorderStyle := Build_BorderStyle None None None.
Definition no_background : BackgroundStyle := Build_BackgroundStyle None None None None.

(** A decoded image. *)
Record Image := {
  img_src : string;
  img_width : number;
  img_height : number
}.

(** A rejection value. *)
Definition error := string.

(** ** The drawing context *)

(** Path construction, on the context's current path or on a [Path2D]. *)
Inductive PathCmd :=
| moveTo (x y : number)
| lineTo (x y : number)
| arc (x y r startAngle endAngle : number).

Inductive CtxCall :=
| path (c : PathCmd)
| beginPath
| closePath
| clip
| set_fillStyle (c : string)
| createLinearGradient (x0 y0 x1 y1 : number)
| addColorStop (offset : number) (c : option string)
| set_fillStyle_gradient
| fillRect (x y w h : number)
| drawImage (image : Image) (x y : number) (w h : option number)
| set_lineWidth (w : number)
| set_strokeStyle (c : string)
| stroke (p : list PathCmd)
| set_font (style variant weight : string) (size lineHeight : number) (family : string)
| set_font_string (f : string)
| set_textAlign (a : string)
| set_textBaseline (b : string)
| fillText (text : jsstring) (x y : number)
| strokeText (text : jsstring) (x y : number).

Record Canvas := {
  canvas_width : number;
  canvas_height : number;
  canvas_calls : list CtxCall
}.

(** The exceptions of the context. *)
Definition IndexSizeError : error := "IndexSizeError"%string.
Definition SyntaxError : error := "SyntaxError"%string.

(** [arc] throws on a negative radius, on the context and on a [Path2D]. *)
Definition arc_error (c : PathCmd) : option error :=
  match c with
  | arc _ _ r _ _ => if ltb r 0 then Some IndexSizeError else None
  | _ => None
  end.

(** The exception of the first path call that throws, if one does. *)
Fixpoint path_error (p : list PathCmd) : option error :=
  match p with
  | [] => None
  | c :: p' =>
      match arc_error c with
      | Some e => Some e
      | None => path_error p'
      end
  end.

(** ToBoolean on the optional style values. *)
Definition truthy_color (c : option BackgroundColor) : bool :=
  match c with
  | Some (Solid s) => truthy_str s
  | Some (Gradient _) => true
  | None => false
  end.

Definition truthy_size (s : option BackgroundSize) : bool :=
  match s with
  | Some (Size1 s) => truthy_str s
  | Some (Size2 _ _) => true
  | None => false
  end.

Definition truthy_position (p : option BackgroundPosition) : bool :=
  match p with
  | Some (Pos1 p) => truthy p
  | Some (Pos2 _ _) => true
  | None => false
  end.

(** [[lt, rt, rb, lb]] from a [Radius]. *)
Definition radius4 (radius : Radius) : number * number * number * number :=
  match radius with
  | Rad4 r0 r1 r2 r3 => (r0, r1, r2, r3)
  | Rad1 r => (r, r, r, r)
  end.

(** ** Own property keys of a gradient object *)

(** A key is an array index when it is an integer in [0, 2^32 - 2]. *)
Definition is_array_index (k : number) : bool :=
  (Pos.eqb (Qden k) 1 && (0 <=? Qnum k) && (Qnum k <? 4294967295))%Z.

Fixpoint insert_asc (k : number) (l : list number) : list number :=
  match l with
  | [] => [k]
  | k' :: l' => if (Qnum k <=? Qnum k')%Z then k :: l else k' :: insert_asc k l'
  end.

Definition sort_asc (l : list number) : list number :=
  fold_right insert_asc [] l.

(** [Object.keys]: array-index keys in ascending numeric order, then the
    other keys in insertion order (OrdinaryOwnPropertyKeys). *)
Definition Object_keys (g : LinearGradient) : list number :=
  sort_asc (filter is_array_index (map fst g))
  ++ filter (fun k => negb (is_array_index k)) (map fst g).

(** [backgroundColor[+key]] *)
Fixpoint get (g : LinearGradient) (key : number) : option string :=
  match g with
  | [] => None
  | (k, c) :: g' => if Qc_eq_bool k key then Some c else get g' key
  end.

(** [str.replace('%', '')]: drops the first percent sign. *)
Fixpoint replace_percent (s : string) : string :=
  match s with
  | EmptyString => EmptyString
  | String a r => if Ascii.eqb a "%"%char then r else String a (replace_percent r)
  end.

(** [deepCopy] of hsu-utils: a fresh value equal to its argument. *)
Definition deepCopy {A : Type} (x : A) : A := x.

(** [forEach((x, idx) => ...)] on the call log, from index [idx]. *)
Fixpoint forEach {A : Type} (f : A -> nat -> list CtxCall) (l : list A) (idx : nat)
  : list CtxCall :=
  match l with
  | [] => []
  | x :: l' => f x idx ++ forEach f l' (S idx)
  end.

(** ** The full preset: TextGraphics *)

Section Painters.

(** The image-loading collaborator, [loadImage] of [_utils/loadImage]: the
    decoded image, or the rejection of its promise. *)
Variable loadImage : string -> error + Image.

(** Unary plus on a string; [None] is NaN. *)
Variable toNumber : string -> option number.

(** The colour parser of the context: whether a string is a CSS colour. *)
Variable parseColor : string -> bool.

(** The outline traced on the current path by [drawCtx], before [clip]. *)
Definition drawCtx_trace (width height : number) (radius : Radius) : list PathCmd :=
  let x := 0 in
  let y := 0 in
  let '(lt, rt, rb, lb) := radius4 radius in
  (if truthy lt
   then [arc (x + lt) (y + lt) lt 1 one_and_half]
   else [moveTo x y])
  ++ (if truthy rt
      then [lineTo (x + width - rt) y; arc (x + width - rt) (y + rt) rt one_and_half 0]
      else [lineTo (x + width) y])
  ++ (if truthy rb
      then [lineTo (x + width) (y + height - rb);
            arc (x + width - rb) (y + height - rb) rb 0 half]
      else [lineTo (x + width) (y + height)])
  ++ (if truthy lb
      then [lineTo (x + lb) (y + height); arc (x + lb) (y + height - lb) lb half 1]
      else [lineTo x (y + height)]).

(** [gradient.addColorStop] throws on an offset outside 0..1, then on a
    colour that does not parse ([undefined] does not). *)
Definition addColorStop_error (offset : number) (c : option string) : option error :=
  if ltb offset 0 || gtb offset 1 then Some IndexSizeError
  else match c with
       | Some c => if parseColor c then None else Some SyntaxError
       | None => Some SyntaxError
       end.

(** The [forEach] over [Object.keys(backgroundColor)]: the stops added, or
    the exception of the first [addColorStop] that throws. *)
Fixpoint addColorStops (g : LinearGradient) (keys : list number)
  : error + list CtxCall :=
  match keys with
  | [] => inr []
  | key :: keys' =>
      let color := get g key in
      match addColorStop_error key color with
      | Some e => inl e
      | None =>
          match addColorStops g keys' with
          | inl e => inl e
          | inr stops => inr (addColorStop key color :: stops)
          end
      end
  end.

(** The fill of [drawCtx] when [backgroundColor] is truthy. *)
Definition drawCtx_fill (width height : number) (backgroundColor : BackgroundColor)
  : error + list CtxCall :=
  match backgroundColor with
  | Solid c => inr [set_fillStyle c; fillRect 0 0 width height]
  | Gradient g =>
      match addColorStops g (Object_keys g) with
      | inl e => inl e
      | inr stops =>
          inr (createLinearGradient 0 0 width height
               :: stops ++ [set_fillStyle_gradient; fillRect 0 0 width height])
      end
  end.

(** One axis of the image size: an absolute value, or a percentage of the
    natural size. *)
Definition resolve_size (size : string) (natural : number) : option number :=
  match toNumber size with
  | Some n => Some n
  | None =>
      match toNumber (replace_percent size) with
      | Some percent => Some ((percent * natural) / hundred)
      | None => None
      end
  end.

(** The image pass of [drawCtx], once the image is loaded. *)
Definition drawCtx_image (image : Image)
    (backgroundSize : option BackgroundSize)
    (backgroundPosition : option BackgroundPosition) : list CtxCall :=
  let '(_x, _y) :=
    if truthy_position backgroundPosition then
      match backgroundPosition with
      | Some (Pos2 px py) => (px, py)
      | Some (Pos1 p) => (p, p)
      | None => (0, 0)
      end
    else (0, 0) in
  let '(_width, _height) :=
    if truthy_size backgroundSize then
      let '(_w_size, _h_size) :=
        match backgroundSize with
        | Some (Size2 w h) => (w, h)
        | Some (Size1 s) => (s, s)
        | None => (EmptyString, EmptyString)
        end in
      (resolve_size _w_size (img_width image), resolve_size _h_size (img_height image))
    else (Some (img_width image), Some (img_height image)) in
  [drawImage image _x _y _width _height].

(** [drawCtx]: the calls made on the context, or the rejection. *)
Definition drawCtx (width height : number) (radius : option Radius)
    (backgroundStyle : option BackgroundStyle) : error + list CtxCall :=
  let radius := dflt radius (Rad1 0) in
  let backgroundStyle := dflt backgroundStyle no_background in
  let backgroundColor := bg_color backgroundStyle in
  let backgroundImage := bg_image backgroundStyle in
  if negb (truthy_color backgroundColor) && negb (truthy_ostr backgroundImage)
  then inr []
  else
    match path_error (drawCtx_trace width height radius) with
    | Some e => inl e
    | None =>
        let outline := map path (drawCtx_trace width height radius) ++ [clip] in
        match
          match backgroundColor with
          | Some c =>
              if truthy_color backgroundColor then drawCtx_fill width height c
              else inr []
          | None => inr []
          end
        with
        | inl e => inl e
        | inr fill =>
            match backgroundImage with
            | Some src =>
                if truthy_str src then
                  match loadImage src with
                  | inl e => inl e
                  | inr image =>
                      inr (outline ++ fill
                           ++ drawCtx_image image (bg_size backgroundStyle)
                                (bg_position backgroundStyle))
                  end
                else inr (outline ++ fill)
            | None => inr (outline ++ fill)
            end
        end
    end.

(** The path built by [drawBorder] in its [Path2D]. *)
Definition drawBorder_path (width height : number) (borderRadius : Radius)
  : list PathCmd :=
  let x := 0 in
  let y := 0 in
  let '(lt, rt, rb, lb) := radius4 borderRadius in
  [ moveTo (x + lt) y;
    lineTo (x + width - lt) y;
    arc (x + width - lt) (y + lt) lt one_and_half 0;
    lineTo (x + width) (y + height - lb);
    arc (x + width - lb) (y + height - lb) lb 0 half;
    lineTo (x + rt) (y + height);
    arc (x + rt) (y + height - rt) rt half 1;
    lineTo x (y + rb);
    arc (x + rb) (y + rb) rb 1 one_and_half ].

(** [drawBorder]: the calls made on the context, or the exception of the
    path under construction. *)
Definition drawBorder (width height : number) (borderStyle : option BorderStyle)
  : error + list CtxCall :=
  let borderStyle := dflt borderStyle no_border in
  let borderColor := bs_color borderStyle in
  let borderWidth := dflt (bs_width borderStyle) 0 in
  let borderRadius := dflt (bs_radius borderStyle) (Rad1 0) in
  if negb (truthy borderWidth) || negb (truthy_ostr borderColor)
  then inr []
  else
    match path_error (drawBorder_path width height borderRadius) with
    | Some e => inl e
    | None =>
        inr [ set_lineWidth borderWidth;
              set_strokeStyle (dflt borderColor EmptyString);
              stroke (drawBorder_path width height borderRadius) ]
    end.

(** [_calculateLeft] *)
Definition _calculateLeft (maxTextLength textLenth : number) (textAlign : TextAlign)
  : number :=
  let _left := 0 in
  let _left :=
    match textAlign with
    | AlignCenter => _left + (maxTextLength - textLenth) / two
    | _ => _left
    end in
  let _left :=
    match textAlign with
    | AlignRight => _left + (maxTextLength - textLenth)
    | _ => _left
    end in
  _left.

(** The loop of [drawRowText] over the characters still to paint. *)
Fixpoint drawRowText_loop (cs : list jsstring) (_left _top fontSize borderWidth
    letterSpacing : number) : list CtxCall :=
  match cs with
  | [] => []
  | char :: cs' =>
      fillText char _left _top
      :: (if truthy borderWidth then [strokeText char _left _top] else [])
      ++ drawRowText_loop cs' (_left + (fontSize * get_char_width char + letterSpacing))
           _top fontSize borderWidth letterSpacing
  end.

(** [drawRowText] *)
Definition drawRowText (text : jsstring) (left top fontSize borderWidth
    letterSpacing : number) : list CtxCall :=
  drawRowText_loop (chars text) left top fontSize borderWidth letterSpacing.

(** The reducer that keeps the wider of two lines (the later one on a tie). *)
Definition wider (prev curr : jsstring) : jsstring :=
  let prevLength := get_string_width prev in
  let currLength := get_string_width curr in
  if gtb prevLength currLength then prev else curr.

(** The pixel length of a line:
    [get_string_width(t) * fontSize + (t.length - 1) * letterSpacing]. *)
Definition text_length (t : jsstring) (fontSize letterSpacing : number) : number :=
  get_string_width t * fontSize + (num_of_nat (length t) - 1) * letterSpacing.

(** [_maxTextLength] of [drawText]. *)
Definition drawText_maxTextLength (text : list jsstring) (maxTextLength : option number)
    (fontSize letterSpacing : number) : number :=
  let _maxTextLength :=
    match reduce wider (deepCopy text) with
    | Some _maxText =>
        let _maxTextWidth := get_string_width _maxText in
        _maxTextWidth * fontSize + (num_of_nat (length _maxText) - 1) * letterSpacing
    | None => 0
    end in
  match maxTextLength with
  | Some m => if truthy m then m else _maxTextLength
  | None => _maxTextLength
  end.

(** [drawText] *)
Definition drawText (text : list jsstring) (maxTextLength : option number)
    (_fontStyle : option FontStyle) (top left rowGap : option number) : list CtxCall :=
  let _fontStyle := dflt _fontStyle no_font in
  let top := dflt top 0 in
  let left := dflt left 0 in
  let rowGap := dflt rowGap 0 in
  let color := dflt (fs_color _fontStyle) "#000"%string in
  let textAlign := dflt (fs_textAlign _fontStyle) AlignLeft in
  let fontStyle := dflt (fs_style _fontStyle) "normal"%string in
  let fontVariant := dflt (fs_variant _fontStyle) "normal"%string in
  let fontWeight := dflt (fs_weight _fontStyle) "normal"%string in
  let fontSize := dflt (fs_size _fontStyle) twelve in
  let lineHeight := dflt (fs_lineHeight _fontStyle) 1 in
  let fontFamily := dflt (fs_family _fontStyle) "微软雅黑"%string in
  let borderColor := dflt (fs_borderColor _fontStyle) "#000"%string in
  let borderWidth := dflt (fs_borderWidth _fontStyle) 0 in
  let letterSpacing := dflt (fs_letterSpacing _fontStyle) 0 in
  let _maxTextLength := drawText_maxTextLength text maxTextLength fontSize letterSpacing in
  let _left := left in
  let _top := top + fontSize / two in
  [ set_font fontStyle fontVariant fontWeight fontSize lineHeight fontFamily;
    set_fillStyle color;
    set_textAlign "left";
    set_textBaseline "middle";
    set_strokeStyle borderColor;
    set_lineWidth borderWidth ]
  ++ forEach (fun _text idx =>
       let _textLenth :=
         get_string_width _text * fontSize
         + (num_of_nat (length _text) - 1) * letterSpacing in
       let _textLeft := _left + _calculateLeft _maxTextLength _textLenth textAlign in
       let _textTop := _top + fontSize * num_of_nat idx + rowGap * num_of_nat idx in
       drawRowText _text _textLeft _textTop fontSize borderWidth letterSpacing)
     text 0.

(** [[_top, _right, _bottom, _left]] of [TextGraphics] and [rectangle]: the
    padding, with a truthy border width added to each side. *)
Definition padding4 (padding : Padding) (borderWidth : number)
  : number * number * number * number :=
  let '(_top, _right, _bottom, _left) :=
    match padding with
    | Pad2 p0 p1 => (p0, p1, p0, p1)
    | Pad4 p0 p1 p2 p3 => (p0, p1, p2, p3)
    | Pad1 p => (p, p, p, p)
    end in
  if truthy borderWidth
  then (_top + borderWidth, _right + borderWidth, _bottom + borderWidth, _left + borderWidth)
  else (_top, _right, _bottom, _left).

(** [_text] of [TextGraphics]: the lines of the content, the falsy ones
    filtered out. *)
Definition TextGraphics_text (content : option Content) : list jsstring :=
  let _text :=
    match content with
    | Some (Arr lines) => deepCopy lines
    | Some (Str s) => if truthy_line s then [s] else []
    | None => []
    end in
  filter truthy_line _text.

Definition is_auto (d : Dimension) : bool :=
  match d with Auto => true | Px _ => false end.

(** The resolved [[width, height]] of [TextGraphics]. *)
Definition TextGraphics_size (options : TextGraphicsOptions) : number * number :=
  let borderStyle := dflt (borderStyle options) no_border in
  let fontStyle := dflt (fontStyle options) no_font in
  let canvasWidth := dflt (width options) Auto in
  let canvasHeight := dflt (height options) Auto in
  let borderWidth := dflt (bs_width borderStyle) 0 in
  let fontSize := dflt (fs_size fontStyle) twelve in
  let padding := dflt (fs_padding fontStyle) (Pad1 0) in
  let rowGap := dflt (fs_rowGap fontStyle) 0 in
  let letterSpacing := dflt (fs_letterSpacing fontStyle) 0 in
  let '(_top, _right, _bottom, _left) := padding4 padding borderWidth in
  let width := match canvasWidth with Px n => n | Auto => 0 end in
  let height := match canvasHeight with Px n => n | Auto => 0 end in
  let _text := TextGraphics_text (content options) in
  (* [reduce] returns a line exactly when [!!_text.length]; the lines read
     [_maxText] only under [canvasWidth === 'auto'] *)
  match reduce wider (deepCopy _text) with
  | Some _maxText =>
      let width :=
        if is_auto canvasWidth then
          let _maxTextWidth := get_string_width _maxText in
          _maxTextWidth * fontSize + (_left + _right)
          + (num_of_nat (length _maxText) - 1) * letterSpacing
        else width in
      let height :=
        if is_auto canvasHeight then
          let _rows := List.length _text in
          num_of_nat _rows * fontSize + (_top + _bottom)
          + (num_of_nat _rows - 1) * rowGap
          - (if Nat.eqb (_rows mod 2) 0 then two else four)
        else height in
      (width, height)
  | None => (width, height)
  end.

(** [TextGraphics] *)
Definition TextGraphics (options : TextGraphicsOptions) : error + Canvas :=
  let borderStyle := dflt (borderStyle options) no_border in
  let backgroundStyle := dflt (backgroundStyle options) no_background in
  let fontStyle := dflt (fontStyle options) no_font in
  let borderRadius := dflt (bs_radius borderStyle) (Rad1 0) in
  let borderWidth := dflt (bs_width borderStyle) 0 in
  let padding := dflt (fs_padding fontStyle) (Pad1 0) in
  let rowGap := dflt (fs_rowGap fontStyle) 0 in
  let '(_top, _right, _bottom, _left) := padding4 padding borderWidth in
  let '(width, height) := TextGraphics_size options in
  let _text := TextGraphics_text (content options) in
  if truthy width && truthy height then
    match drawCtx width height (Some borderRadius) (Some backgroundStyle) with
    | inl e => inl e
    | inr background =>
        match drawBorder width height (Some borderStyle) with
        | inl e => inl e
        | inr border =>
            inr (Build_Canvas width height
                   (background
                    ++ border
                    ++ drawText _text (Some (width - (_left + _right))) (Some fontStyle)
                         (Some _top) (Some _left) (Some rowGap)))
        end
    end
  else inr (Build_Canvas width height []).

End Painters.

(** ** The minimal preset: rectangle *)

Module Rectangle.

Record FontStyle := {
  fs_size : option string;
  fs_family : option string;
  fs_color : option string;
  fs_textAlign : option string;
  fs_textBaseline : option string;
  fs_padding : option Padding;
  fs_rowGap : option number
}.

Record RectangleOptions := {
  content : option Content;
  borderStyle : option BorderStyle;
  backgroundColor : option string;
  fontStyle : option FontStyle;
  width : option Dimension;
  height : option Dimension
}.

Definition no_font : FontStyle := Build_FontStyle None None None None None None None.

(** What a call leaves behind: the settled promise, and the caller's
    [content] value as it is after the call (the array is shared with the
    caller, so a method that works in place shows here). *)
Record Outcome := {
  result : error + Canvas;
  content_after : option Content
}.

(** [get_string_width]: both branches of the conditional add 1. *)
Definition get_string_width (str : jsstring) : number :=
  fold_left (fun width char =>
               width + (if ((charCodeAt0 char <? 128) && (0 <=? charCodeAt0 char))%N
                        then 1 else 1))
            (chars str) 0.

(** [\d] *)
Definition is_digit (a : ascii) : bool :=
  ((48 <=? N_of_ascii a) && (N_of_ascii a <=? 57))%N.

Fixpoint leading_digits (s : string) : list ascii :=
  match s with
  | EmptyString => []
  | String a r => if is_digit a then a :: leading_digits r else []
  end.

(** [fontSize.match(/(\d+)/)?.[0]]: the leftmost longest run of digits. *)
Fixpoint match_digits (s : string) : option (list ascii) :=
  match s with
  | EmptyString => None
  | String a r => if is_digit a then Some (a :: leading_digits r) else match_digits r
  end.

(** The integer that a string of decimal digits writes. *)
Definition digits_value (ds : list ascii) : Z :=
  fold_left (fun acc d => (acc * 10 + (Z.of_N (N_of_ascii d) - 48))%Z) ds 0%Z.

(** The double nearest to a non-negative integer, ties to the even
    significand: the integer itself up to 53 significant bits, and from
    there the integer rounded to its 53 leading bits.  (Beyond the largest
    double a number is [Infinity], which the model does not hold.) *)
Definition nearest_double (z : Z) : Z :=
  let k := (Z.log2 z - 52)%Z in
  if (k <=? 0)%Z then z
  else
    let q := Z.shiftr z k in
    let r := Z.land z (Z.ones k) in
    let tie := Z.shiftl 1 (k - 1) in
    let q := if (tie <? r)%Z || ((r =? tie)%Z && Z.odd q) then (q + 1)%Z else q in
    Z.shiftl q k.

(** [+(fontSize.match(/(\d+)/)?.[0] ?? '12')]: unary plus reads the digits
    as a double. *)
Definition font_size_matches (fontSize : string) : number :=
  match match_digits fontSize with
  | Some ds => num_of_Z (nearest_double (digits_value ds))
  | None => twelve
  end.

(** The outline traced on the current path by [drawCtx], between
    [beginPath] and [closePath]: the four arcs are made whatever the
    radii. *)
Definition drawCtx_trace (width height : number) (radius : Radius) : list PathCmd :=
  let x := 0 in
  let y := 0 in
  let '(lt, rt, rb, lb) := radius4 radius in
  [ arc (x + lt) (y + lt) lt 1 one_and_half;
    lineTo (x + width - rt) y;
    arc (x + width - rt) (y + rt) rt one_and_half 0;
    lineTo (x + width) (y + height - rb);
    arc (x + width - rb) (y + height - rb) rb 0 half;
    lineTo (x + lb) (y + height);
    arc (x + lb) (y + height - lb) lb half 1 ].

(** [drawCtx]: the calls made on the context, or the exception of the
    first arc that throws. *)
Definition drawCtx (width height : number) (radius : option Radius)
    (backgroundColor : option string) : error + list CtxCall :=
  let radius := dflt radius (Rad1 0) in
  let backgroundColor := dflt backgroundColor "#ffffff00"%string in
  match path_error (drawCtx_trace width height radius) with
  | Some e => inl e
  | None =>
      inr (beginPath
           :: map path (drawCtx_trace width height radius)
           ++ [ closePath;
                set_fillStyle backgroundColor;
                fillRect 0 0 width height ])
  end.

(** The path built by [drawBorder] in its [Path2D]. *)
Definition drawBorder_path (width height : number) (borderRadius : Radius)
  : list PathCmd :=
  let x := 0 in
  let y := 0 in
  let '(lt, rt, rb, lb) := radius4 borderRadius in
  [ moveTo (x + lt) y;
    lineTo (x + width - lt) y;
    arc (x + width - lt) (y + lt) lt one_and_half 0;
    lineTo (x + width) (y + height - lb);
    arc (x + width - lb) (y + height - lb) lb 0 half;
    lineTo (x + rt) (y + height);
    arc (x + rt) (y + height - rt) rt half 1;
    lineTo x (y + rb);
    arc (x + rb) (y + rb) rb 1 one_and_half ].

(** [drawBorder]: no guard, the path is built and stroked whatever the
    border width; the calls made on the context, or the exception of the
    path under construction. *)
Definition drawBorder (width height : number) (borderStyle : option BorderStyle)
  : error + list CtxCall :=
  let borderStyle := dflt borderStyle no_border in
  let borderColor := dflt (bs_color borderStyle) "#fff"%string in
  let borderWidth := dflt (bs_width borderStyle) 0 in
  let borderRadius := dflt (bs_radius borderStyle) (Rad1 0) in
  match path_error (drawBorder_path width height borderRadius) with
  | Some e => inl e
  | None =>
      inr [ set_lineWidth borderWidth;
            set_strokeStyle borderColor;
            stroke (drawBorder_path width height borderRadius) ]
  end.

(** [drawText] *)
Definition drawText (text : Content) (fontStyle : option FontStyle)
    (top left rowGap : option number) : list CtxCall :=
  let fontStyle := dflt fontStyle no_font in
  let top := dflt top 0 in
  let left := dflt left 0 in
  let rowGap := dflt rowGap 0 in
  let fontSize := dflt (fs_size fontStyle) "12px"%string in
  let fontFamily := dflt (fs_family fontStyle) "微软雅黑"%string in
  let color := dflt (fs_color fontStyle) "#000"%string in
  let textAlign := dflt (fs_textAlign fontStyle) "left"%string in
  let textBaseline := dflt (fs_textBaseline fontStyle) "middle"%string in
  [ set_font_string (fontSize ++ " " ++ fontFamily ++ " ")%string;
    set_fillStyle color;
    set_textAlign textAlign;
    set_textBaseline textBaseline ]
  ++ match text with
     | Arr lines =>
         forEach (fun item idx =>
           let _matches := font_size_matches fontSize in
           let _height :=
             _matches * (num_of_nat idx + 1) + top
             + (if negb (Nat.eqb idx 0) then rowGap else 0) in
           [fillText item left _height])
         lines 0
     | Str s => [fillText s left top]
     end.

(** [Array.prototype.sort((a, b) => b.length - a.length)]: a stable sort by
    descending length, in place. *)
Fixpoint sort_insert (a : jsstring) (l : list jsstring) : list jsstring :=
  match l with
  | [] => [a]
  | b :: l' =>
      if (length b <=? length a)%nat then a :: l else b :: sort_insert a l'
  end.

Definition sort (l : list jsstring) : list jsstring :=
  fold_right sort_insert [] l.

(** ToBoolean on [content]: an array is truthy, also when empty. *)
Definition truthy_content (c : option Content) : bool :=
  match c with
  | Some (Arr _) => true
  | Some (Str s) => truthy_line s
  | None => false
  end.

(** The sizing step of [rectangle]: the resolved [[width, height]] and the
    content as the step leaves it, or the TypeError of iterating
    [undefined] when the array is empty. *)
Definition rectangle_size (options : RectangleOptions)
  : (error + number * number) * option Content :=
  let borderStyle := dflt (borderStyle options) no_border in
  let fontStyle := dflt (fontStyle options) no_font in
  let canvasWidth := dflt (width options) Auto in
  let canvasHeight := dflt (height options) Auto in
  let borderWidth := dflt (bs_width borderStyle) 0 in
  let fontSize := dflt (fs_size fontStyle) "12px"%string in
  let padding := dflt (fs_padding fontStyle) (Pad1 0) in
  let rowGap := dflt (fs_rowGap fontStyle) 0 in
  let '(_top, _right, _bottom, _left) := padding4 padding borderWidth in
  let width := match canvasWidth with Px n => n | Auto => 0 end in
  let height := match canvasHeight with Px n => n | Auto => 0 end in
  if truthy_content (content options) && (is_auto canvasWidth || is_auto canvasHeight)
  then
    let _matches := font_size_matches fontSize in
    (* canvasWidth === 'auto' *)
    let '(width_step, content1) :=
      if is_auto canvasWidth then
        match content options with
        | Some (Arr lines) =>
            let sorted := sort lines in
            (match sorted with
             | first :: _ =>
                 inr (get_string_width first * _matches + (_left + _right))
             | [] => inl "TypeError: undefined is not iterable"%string
             end, Some (Arr sorted))
        | Some (Str s) =>
            (inr (get_string_width s * _matches + (_left + _right)), content options)
        | None => (inr width, content options)
        end
      else (inr width, content options) in
    match width_step with
    | inl e => (inl e, content1)
    | inr width =>
        let height :=
          if is_auto canvasHeight then
            let _rows :=
              match content1 with
              | Some (Arr lines) => List.length lines
              | _ => 1%nat
              end in
            num_of_nat _rows * _matches + (_top + _bottom)
            + (num_of_nat _rows - 1) * rowGap
          else height in
        (inr (width, height), content1)
    end
  else (inr (width, height), content options).

(** [rectangle] *)
Definition rectangle (options : RectangleOptions) : Outcome :=
  let borderStyle := dflt (borderStyle options) no_border in
  let fontStyle := dflt (fontStyle options) no_font in
  let borderRadius := dflt (bs_radius borderStyle) (Rad1 0) in
  let borderWidth := dflt (bs_width borderStyle) 0 in
  let padding := dflt (fs_padding fontStyle) (Pad1 0) in
  let rowGap := dflt (fs_rowGap fontStyle) 0 in
  let backgroundColor := dflt (backgroundColor options) "#ffffff00"%string in
  let '(_top, _right, _bottom, _left) := padding4 padding borderWidth in
  match rectangle_size options with
  | (inl e, content1) => Build_Outcome (inl e) content1
  | (inr (width, height), content1) =>
      if truthy width && truthy height then
        match drawCtx width height (Some borderRadius) (Some backgroundColor) with
        | inl e => Build_Outcome (inl e) content1
        | inr background =>
            match drawBorder width height (Some borderStyle) with
            | inl e => Build_Outcome (inl e) content1
            | inr border =>
                Build_Outcome
                  (inr (Build_Canvas width height
                          (background
                           ++ border
                           ++ match content1 with
                              | Some c =>
                                  if truthy_content content1
                                  then drawText c (Some fontStyle) (Some _top)
                                         (Some _left) (Some rowGap)
                                  else []
                              | None => []
                              end)))
                  content1
            end
        end
      else Build_Outcome (inr (Build_Canvas width height [])) content1
  end.

End Rectangle.

(** ** The specification's wording

    Definitions that follow the words of the specification, to be compared
    with the definitions taken from the source. *)

(** The width factor of a character: 0.5 for a code in 0..127, 1 otherwise. *)
Definition widthFactor (char : jsstring) : number :=
  if (charCodeAt0 char <? 128)%N then half else 1.

(** Whether a line holds a surrogate pair: a high surrogate followed at
    once by a low one. *)
Fixpoint has_surrogate_pair (s : jsstring) : bool :=
  match s with
  | [] => false
  | u :: rest =>
      match rest with
      | l :: _ => (is_high_surrogate u && is_low_surrogate l) || has_surrogate_pair rest
      | [] => false
      end
  end.

(** The four sides of a padding given as 1, 2 or 4 values: one value for
    all sides; vertical then horizontal; top, right, bottom, left. *)
Definition padding_top (padding : Padding) : number :=
  match padding with Pad1 p => p | Pad2 v _ => v | Pad4 t _ _ _ => t end.
Definition padding_right (padding : Padding) : number :=
  match padding with Pad1 p => p | Pad2 _ h => h | Pad4 _ r _ _ => r end.
Definition padding_bottom (padding : Padding) : number :=
  match padding with Pad1 p => p | Pad2 v _ => v | Pad4 _ _ b _ => b end.
Definition padding_left (padding : Padding) : number :=
  match padding with Pad1 p => p | Pad2 _ h => h | Pad4 _ _ _ l => l end.

(** The lines of a content, and those of them that are not empty. *)
Definition content_lines (c : option Content) : list jsstring :=
  match c with
  | Some (Arr lines) => lines
  | Some (Str s) => [s]
  | None => []
  end.

Definition nonempty_lines (c : option Content) : list jsstring :=
  filter (fun line => negb (Nat.eqb (length line) 0)) (content_lines c).

(** The four radii of a radius, none of them negative. *)
Definition radii_nonnegative (radius : option Radius) : Prop :=
  match radius with
  | Some (Rad1 r) => 0 <= r
  | Some (Rad4 r0 r1 r2 r3) => 0 <= r0 /\ 0 <= r1 /\ 0 <= r2 /\ 0 <= r3
  | None => True
  end.

(** A gradient whose stops the context accepts: every key in 0..1 and every
    colour a colour for the parser. *)
Definition gradient_accepted (parseColor : string -> bool) (g : LinearGradient) : Prop :=
  Forall (fun kc => 0 <= fst kc /\ fst kc <= 1 /\ parseColor (snd kc) = true) g.

(** A background style whose fill the context accepts. *)
Definition background_accepted (parseColor : string -> bool)
    (background : option BackgroundStyle) : Prop :=
  match bg_color (dflt background no_background) with
  | Some (Gradient g) => gradient_accepted parseColor g
  | _ => True
  end.

(** The sum of a list of numbers. *)
Definition sum (l : list number) : number := fold_right Qcplus 0 l.

(** The pixel width of a line:
    stringWidth(line) * fontSize + letterSpacing * (length(line) - 1). *)
Definition lineWidth (line : jsstring) (fontSize letterSpacing : number) : number :=
  get_string_width line * fontSize + letterSpacing * (num_of_nat (length line) - 1).

(** The horizontal offset of a line within the available text width. *)
Definition offset (textAlign : TextAlign) (available width : number) : number :=
  match textAlign with
  | AlignLeft => 0
  | AlignCenter => (available - width) / two
  | AlignRight => available - width
  end.

(** The distance the pen of [drawRowText] travels over a run of characters. *)
Definition advance (cs : list jsstring) (fontSize letterSpacing : number) : number :=
  sum (map (fun char => fontSize * get_char_width char + letterSpacing) cs).



(** The rounded corners of a path: the centre and radius of each arc of
    non-zero radius, in the order of the path. *)
Fixpoint rounded_corners (p : list PathCmd) : list (number * number * number) :=
  match p with
  | [] => []
  | arc x y r _ _ :: p' =>
      if truthy r then (x, y, r) :: rounded_corners p' else rounded_corners p'
  | _ :: p' => rounded_corners p'
  end.

(** The texts of the [fillText] calls of a log, in the order of the calls. *)
Fixpoint filled_texts (calls : list CtxCall) : list jsstring :=
  match calls with
  | [] => []
  | fillText text _ _ :: calls' => text :: filled_texts calls'
  | _ :: calls' => filled_texts calls'
  end.

(** The texts of the [strokeText] calls of a log, in the order of the calls. *)
Fixpoint stroked_texts (calls : list CtxCall) : list jsstring :=
  match calls with
  | [] => []
  | strokeText text _ _ :: calls' => text :: stroked_texts calls'
  | _ :: calls' => stroked_texts calls'
  end.

(** The radius of each arc of a path, in the order of the path. *)
Fixpoint arc_radii (p : list PathCmd) : list number :=
  match p with
  | [] => []
  | arc _ _ r _ _ :: p' => r :: arc_radii p'
  | _ :: p' => arc_radii p'
  end.

(** ** Sample collaborators and inputs *)

(** An image loader whose promise always rejects. *)
Definition failing_loader (src : string) : error + Image :=
  inl ("cannot load " ++ src)%string.

(** An image loader that decodes every source to a 64 by 32 image. *)
Definition sample_loader (src : string) : error + Image :=
  inr (Build_Image src (num_of_Z 64) (num_of_Z 32)).

(** A string conversion that yields NaN on every string. *)
Definition nan_number (s : string) : option number := None.

(** A colour parser that takes every string for a colour but "nocolour". *)
Definition sample_parser (c : string) : bool := negb (String.eqb c "nocolour").

(** A font style that sets the size only. *)
Definition font_of_size (size : number) : FontStyle :=
  Build_FontStyle None None None (Some size) None None None None None None None None None.


(** The gradient map {0:"#fff", 0.5:"#888", 1:"#000"}. *)
Definition three_stops : LinearGradient :=
  [(0, "#fff"%string); (half, "#888"%string); (1, "#000"%string)].


(** The lines "OK", "" and "文文文" at font size 12 with letter spacing 1
    and row gap 2, the padding [1, 2, 3, 4] and a border of width 2. *)
Definition padded_box : TextGraphicsOptions :=
  Build_TextGraphicsOptions
    (Some (Arr [line_of_string "OK"; []; [25991; 25991; 25991]%N]))
    (Some (Build_BorderStyle (Some "#000"%string) (Some two) None))
    None
    (Some (Build_FontStyle None None None (Some twelve) None None None
             (Some (Pad4 1 two (num_of_Z 3) four)) (Some two) None (Some 1) None None))
    None None.

(** An options object with its [borderStyle] replaced. *)
Definition with_borderStyle (options : TextGraphicsOptions) (b : option BorderStyle)
  : TextGraphicsOptions :=
  Build_TextGraphicsOptions (content options) b (backgroundStyle options)
    (fontStyle options) (width options) (height options).

(** "OK" on a red 100 by 50 box. *)
Definition red_box : TextGraphicsOptions :=
  Build_TextGraphicsOptions (Some (Str (line_of_string "OK"))) None
    (Some (Build_BackgroundStyle (Some (Solid "#f00")) None None None)) None
    (Some (Px hundred)) (Some (Px (num_of_Z 50))).

(** The lines "a" and "bbb", shortest first. *)
Definition two_lines : list jsstring := [line_of_string "a"; line_of_string "bbb"].

(** The minimal preset on [two_lines], every option left to its default. *)
Definition two_lines_rectangle : Rectangle.RectangleOptions :=
  Rectangle.Build_RectangleOptions (Some (Arr two_lines)) None None None None None.

(** The minimal preset on [two_lines] at font size "14px" with row gap 2,
    the padding [1, 2, 3, 4] and a border of width 2. *)
Definition padded_rectangle : Rectangle.RectangleOptions :=
  Rectangle.Build_RectangleOptions (Some (Arr two_lines))
    (Some (Build_BorderStyle None (Some two) None)) None
    (Some (Rectangle.Build_FontStyle (Some "14px"%string) None None None None
             (Some (Pad4 1 two (num_of_Z 3) four)) (Some two)))
    None None.

(** Options of the minimal preset with their [content] replaced by an
    array of lines. *)
Definition with_Rectangle_content (options : Rectangle.RectangleOptions)
    (lines : list jsstring) : Rectangle.RectangleOptions :=
  Rectangle.Build_RectangleOptions (Some (Arr lines)) (Rectangle.borderStyle options)
    (Rectangle.backgroundColor options) (Rectangle.fontStyle options)
    (Rectangle.width options) (Rectangle.height options).

(** An options object with its [content] replaced. *)
Definition with_content (options : TextGraphicsOptions) (c : option Content)
  : TextGraphicsOptions :=
  Build_TextGraphicsOptions c (borderStyle options) (backgroundStyle options)
    (fontStyle options) (width options) (height options).

(** A font style with its [size] replaced. *)
Definition set_size (f : FontStyle) (size : number) : FontStyle :=
  Build_FontStyle (fs_style f) (fs_variant f) (fs_weight f) (Some size)
    (fs_lineHeight f) (fs_family f) (fs_color f) (fs_padding f) (fs_rowGap f)
    (fs_textAlign f) (fs_letterSpacing f) (fs_borderColor f) (fs_borderWidth f).

(** An options object with the font size replaced. *)
Definition with_font_size (options : TextGraphicsOptions) (size : number)
  : TextGraphicsOptions :=
  Build_TextGraphicsOptions (content options) (borderStyle options)
    (backgroundStyle options)
    (Some (set_size (dflt (fontStyle options) no_font) size))
    (width options) (height options).

(** [a] may stand before [b] in an array sorted by descending length. *)
Definition longer_eq (a b : jsstring) : Prop := (length b <= length a)%nat.

(** The decimal writing of a natural number. *)
Definition decimal (n : nat) : string := NilEmpty.string_of_uint (Nat.to_uint n).

(** * Properties *)

(** ** Numbers *)

Lemma truthy_false_iff (x : number) : truthy x = false <-> x = 0.
Proof.
  unfold truthy, Qc_eq_bool.
  destruct (Qc_eq_dec x 0) as [E | E]; simpl; split; intro H; try assumption;
    try reflexivity; try discriminate; contradiction.
Qed.

Lemma truthy_true_iff (x : number) : truthy x = true <-> x <> 0.
Proof.
  unfold truthy, Qc_eq_bool.
  destruct (Qc_eq_dec x 0) as [E | E]; simpl; split; intro H; try assumption;
    try reflexivity; try discriminate; contradiction.
Qed.

Lemma truthy_0 : truthy 0 = false.
Proof. apply truthy_false_iff; reflexivity. Qed.



Lemma gtb_true_iff (x y : number) : gtb x y = true <-> y < x.
Proof.
  unfold gtb. pose proof (Qcgt_alt x y) as A. simpl in A. unfold Qclt.
  destruct (x ?= y); split; intro H; try reflexivity; try discriminate;
    try (apply A; reflexivity); apply A in H; discriminate.
Qed.

Lemma gtb_false_iff (x y : number) : gtb x y = false <-> x <= y.
Proof.
  unfold gtb. pose proof (Qcle_alt x y) as A.
  destruct (x ?= y); split; intro H; try reflexivity; try discriminate;
    try (apply A; intro; discriminate); apply A in H; exfalso; apply H; reflexivity.
Qed.

Lemma num_of_Z_add (a b : Z) : num_of_Z (a + b) = num_of_Z a + num_of_Z b.
Proof.
  unfold num_of_Z, Qcplus. apply Q2Qc_eq_iff. cbn [this Q2Qc].
  rewrite !Qred_correct, inject_Z_plus. reflexivity.
Qed.

Lemma num_of_nat_S (n : nat) : num_of_nat (S n) = num_of_nat n + 1.
Proof.
  unfold num_of_nat. rewrite Nat2Z.inj_succ, <- Z.add_1_r. apply num_of_Z_add.
Qed.

Lemma num_of_nat_0 : num_of_nat 0 = 0.
Proof. reflexivity. Qed.

Lemma half_plus_half : half + half = 1.
Proof. apply Qc_is_canon. reflexivity. Qed.

(** ** The character-width model *)

Lemma fold_left_add {A : Type} (f : A -> number) (l : list A) (a : number) :
  fold_left (fun width x => width + f x) l a = a + sum (map f l).
Proof.
  revert a. induction l as [| x l IH]; intro a; simpl.
  - ring.
  - rewrite IH. ring.
Qed.

Lemma get_string_width_sum (s : jsstring) :
  get_string_width s = sum (map widthFactor (chars s)).
Proof.
  unfold get_string_width.
  rewrite (fold_left_add
             (fun char => if ((charCodeAt0 char <? 128) && (0 <=? charCodeAt0 char))%N
                          then half else 1)).
  rewrite Qcplus_0_l. f_equal. apply map_ext. intro char. unfold widthFactor.
  replace (0 <=? charCodeAt0 char)%N with true by (symmetry; apply N.leb_le, N.le_0_l).
  rewrite andb_true_r. reflexivity.
Qed.

Lemma chars_no_surrogate (s : jsstring) :
  Forall (fun u => is_high_surrogate u = false) s ->
  chars s = map (fun u => [u]) s.
Proof.
  induction s as [| u rest IH]; intro H; [reflexivity |].
  inversion H as [| ? ? Hu Hrest]; subst.
  specialize (IH Hrest). simpl. destruct rest as [| l rest'].
  - reflexivity.
  - rewrite Hu. simpl andb. cbv iota. rewrite IH. reflexivity.
Qed.

Lemma ascii_not_surrogate (u : N) : (u < 128)%N -> is_high_surrogate u = false.
Proof.
  intro H. unfold is_high_surrogate.
  apply andb_false_iff. left. apply N.leb_gt. lia.
Qed.

Lemma sum_wide (cs : list jsstring) :
  Forall (fun char => (128 <= charCodeAt0 char)%N) cs ->
  sum (map widthFactor cs) = 1 * num_of_nat (List.length cs).
Proof.
  induction cs as [| c cs IH]; intro H.
  - simpl. rewrite num_of_nat_0. ring.
  - inversion H as [| ? ? Hc Hcs]; subst. cbn [map sum fold_right List.length].
    fold (sum (map widthFactor cs)). rewrite (IH Hcs), num_of_nat_S.
    unfold widthFactor. replace (charCodeAt0 c <? 128)%N with false
      by (symmetry; apply N.ltb_ge; exact Hc).
    ring.
Qed.

Lemma sum_narrow (s : jsstring) :
  Forall (fun u => (u < 128)%N) s ->
  sum (map widthFactor (map (fun u => [u]) s)) = half * num_of_nat (length s).
Proof.
  induction s as [| u s IH]; intro H.
  - simpl. rewrite num_of_nat_0. ring.
  - inversion H as [| ? ? Hu Hs]; subst. unfold length in *.
    cbn [map sum fold_right List.length].
    fold (sum (map widthFactor (map (fun u => [u]) s))).
    rewrite (IH Hs), num_of_nat_S.
    unfold widthFactor. cbn [charCodeAt0].
    replace (u <? 128)%N with true by (symmetry; apply N.ltb_lt; exact Hu).
    ring.
Qed.

(** Induction that follows the two-unit look-ahead of [chars]. *)
Lemma chars_ind (P : jsstring -> Prop) :
  P [] ->
  (forall u, P [u]) ->
  (forall u l rest, P rest -> P (l :: rest) -> P (u :: l :: rest)) ->
  forall s, P s.
Proof.
  intros Hnil Hone Hstep s.
  assert (H : P s /\ forall u, P (u :: s)).
  { induction s as [| l rest [IH1 IH2]].
    - split; [exact Hnil | exact Hone].
    - split; [apply IH2 |]. intro u. apply Hstep; [exact IH1 | apply IH2]. }
  exact (proj1 H).
Qed.

Lemma chars_step (u l : N) (rest : jsstring) :
  chars (u :: l :: rest)
  = if is_high_surrogate u && is_low_surrogate l
    then [u; l] :: chars rest
    else [u] :: chars (l :: rest).
Proof. reflexivity. Qed.

Lemma concat_chars (s : jsstring) : List.concat (chars s) = s.
Proof.
  induction s as [| u | u l rest IH1 IH2] using chars_ind; try reflexivity.
  rewrite chars_step. destruct (is_high_surrogate u && is_low_surrogate l).
  - cbn [List.concat app]. rewrite IH1. reflexivity.
  - cbn [List.concat app]. rewrite IH2. reflexivity.
Qed.

Lemma chars_length (s : jsstring) : (List.length (chars s) <= List.length s)%nat.
Proof.
  induction s as [| u | u l rest IH1 IH2] using chars_ind; try (simpl; lia).
  rewrite chars_step. destruct (is_high_surrogate u && is_low_surrogate l);
    cbn [List.length] in *; lia.
Qed.

Lemma chars_length_pair (s : jsstring) :
  List.length (chars s) = length s <-> has_surrogate_pair s = false.
Proof.
  unfold length.
  induction s as [| u | u l rest IH1 IH2] using chars_ind; try (split; reflexivity).
  rewrite chars_step. change (has_surrogate_pair (u :: l :: rest))
    with ((is_high_surrogate u && is_low_surrogate l) || has_surrogate_pair (l :: rest)).
  destruct (is_high_surrogate u && is_low_surrogate l); cbn [orb].
  - pose proof (chars_length rest) as Hle. cbn [List.length]. split; [lia | discriminate].
  - cbn [List.length] in *. rewrite <- IH2. split; lia.
Qed.

(** C4, as amended.  [get_string_width] is the sum over the characters of
    the string (the code points walked by [for..of]) of the factor 0.5 for
    an ASCII character and 1 for any other.  For a string of ASCII
    characters only it is 0.5 * length; for a string of non-ASCII characters
    only it is 1.0 * the number of characters, and that number is the
    length of the string exactly when the string holds no surrogate pair. *)
Theorem C4_string_width (s : jsstring) :
  get_string_width s = sum (map widthFactor (chars s))
  /\ (Forall (fun u => (u < 128)%N) s ->
      get_string_width s = half * num_of_nat (length s))
  /\ (Forall (fun char => (128 <= charCodeAt0 char)%N) (chars s) ->
      get_string_width s = 1 * num_of_nat (List.length (chars s)))
  /\ (has_surrogate_pair s = false <-> List.length (chars s) = length s).
Proof.
  split; [apply get_string_width_sum |]. split; [| split].
  - intro H. rewrite get_string_width_sum, chars_no_surrogate.
    + apply sum_narrow, H.
    + eapply Forall_impl; [| exact H]. apply ascii_not_surrogate.
  - intro H. rewrite get_string_width_sum. apply sum_wide, H.
  - symmetry. apply chars_length_pair.
Qed.

(** The line "OK文": two ASCII characters and one wide character; and a
    line that starts with a high surrogate left alone, D83D then "文". *)
Lemma C4_string_width_witness :
  get_string_width [79; 75; 25991]%N = sum (map widthFactor (chars [79; 75; 25991]%N))
  /\ get_string_width [79; 75]%N = half * num_of_nat (length [79; 75]%N)
  /\ get_string_width [25991]%N = 1 * num_of_nat (List.length (chars [25991]%N))
  /\ List.length (chars [55357; 25991]%N) = length [55357; 25991]%N
  /\ get_string_width [55357; 25991]%N
     = 1 * num_of_nat (List.length (chars [55357; 25991]%N)).
Proof.
  split; [apply (C4_string_width [79; 75; 25991]%N) |]. split; [| split; [| split]].
  - apply (C4_string_width [79; 75]%N). repeat constructor.
  - apply (C4_string_width [25991]%N). repeat constructor; vm_compute; discriminate.
  - apply (C4_string_width [55357; 25991]%N). reflexivity.
  - apply (C4_string_width [55357; 25991]%N). repeat constructor; vm_compute; discriminate.
Defined.

(** C4 as stated fails on U+1F600, the surrogate pair D83D DE00: one
    non-ASCII character, of width 1, in a string of length 2. *)
Lemma C4_surrogate_pair_counterexample :
  Forall (fun char => (128 <= charCodeAt0 char)%N) (chars [55357; 56832]%N)
  /\ length [55357; 56832]%N = 2%nat
  /\ get_string_width [55357; 56832]%N = 1
  /\ get_string_width [55357; 56832]%N <> 1 * num_of_nat (length [55357; 56832]%N).
Proof.
  split; [| split; [| split]].
  - repeat constructor. vm_compute. discriminate.
  - reflexivity.
  - apply Qc_is_canon. reflexivity.
  - intro H. apply (f_equal this) in H. vm_compute in H. discriminate H.
Qed.

(** ** The auto-layout resolver *)

Lemma fold_left_wider (l : list jsstring) (a : jsstring) :
  In (fold_left wider l a) (a :: l)
  /\ forall x, In x (a :: l) ->
               get_string_width x <= get_string_width (fold_left wider l a).
Proof.
  revert a. induction l as [| b l IH]; intro a.
  - simpl. split; [left; reflexivity |].
    intros x [E | []]. subst. apply Qcle_refl.
  - cbn [fold_left]. destruct (IH (wider a b)) as [Hin Hmax]. split.
    + destruct Hin as [E | Hin].
      * rewrite <- E. unfold wider.
        destruct (gtb (get_string_width a) (get_string_width b));
          [left | right; left]; reflexivity.
      * right; right; exact Hin.
    + assert (Ha : get_string_width a <= get_string_width (wider a b)).
      { unfold wider.
        destruct (gtb (get_string_width a) (get_string_width b)) eqn:G.
        - apply Qcle_refl.
        - apply gtb_false_iff, G. }
      assert (Hb : get_string_width b <= get_string_width (wider a b)).
      { unfold wider.
        destruct (gtb (get_string_width a) (get_string_width b)) eqn:G.
        - apply Qclt_le_weak, gtb_true_iff, G.
        - apply Qcle_refl. }
      intros x [E | [E | Hx]].
      * subst x. eapply Qcle_trans; [exact Ha |]. apply Hmax. left; reflexivity.
      * subst x. eapply Qcle_trans; [exact Hb |]. apply Hmax. left; reflexivity.
      * apply Hmax. right; exact Hx.
Qed.

Lemma reduce_wider (lines : list jsstring) :
  lines <> [] ->
  exists widest,
    reduce wider lines = Some widest
    /\ In widest lines
    /\ forall line, In line lines -> get_string_width line <= get_string_width widest.
Proof.
  destruct lines as [| a l]; intro H; [contradiction |].
  exists (fold_left wider l a). split; [reflexivity |]. apply fold_left_wider.
Qed.

Lemma padding4_border (padding : Padding) (borderWidth : number) :
  forall top right bottom left,
    padding4 padding 0 = (top, right, bottom, left) ->
    padding4 padding borderWidth
    = (top + borderWidth, right + borderWidth, bottom + borderWidth, left + borderWidth).
Proof.
  intros top right bottom left. unfold padding4. rewrite truthy_0.
  destruct (truthy borderWidth) eqn:T.
  - destruct padding; intro E; inversion E; subst; reflexivity.
  - apply truthy_false_iff in T. subst borderWidth.
    destruct padding; intro E; inversion E; subst; rewrite !Qcplus_0_r; reflexivity.
Qed.

Lemma padding4_total (padding : Padding) :
  exists top right bottom left, padding4 padding 0 = (top, right, bottom, left).
Proof.
  unfold padding4. rewrite truthy_0. destruct padding; repeat eexists.
Qed.

Lemma padding4_sides (padding : Padding) (borderWidth : number) :
  padding4 padding borderWidth
  = (padding_top padding + borderWidth, padding_right padding + borderWidth,
     padding_bottom padding + borderWidth, padding_left padding + borderWidth).
Proof.
  apply padding4_border. unfold padding4. rewrite truthy_0.
  destruct padding; reflexivity.
Qed.

Lemma TextGraphics_text_lines (c : option Content) :
  TextGraphics_text c = nonempty_lines c.
Proof.
  assert (H : forall lines,
    filter truthy_line lines
    = filter (fun line => negb (Nat.eqb (length line) 0)) lines).
  { intro lines. apply filter_ext. intros [| u line]; reflexivity. }
  unfold TextGraphics_text, nonempty_lines, content_lines, deepCopy.
  destruct c as [[s | lines] |]; [| apply H | reflexivity].
  destruct s; reflexivity.
Qed.

(** C2.  With width "auto" and at least one non-empty line, the resolved
    width is the greatest [get_string_width] over the non-empty lines of the
    content times the font size, plus the letter spacing times the length
    of the chosen widest line less one, plus the left and the right padding
    of the caller, each with the border width added to it; the border width
    is added once to each of the four sides of the padding. *)
Theorem C2_auto_width (options : TextGraphicsOptions) :
  let font := dflt (fontStyle options) no_font in
  let fontSize := dflt (fs_size font) twelve in
  let letterSpacing := dflt (fs_letterSpacing font) 0 in
  let padding := dflt (fs_padding font) (Pad1 0) in
  let borderWidth := dflt (bs_width (dflt (borderStyle options) no_border)) 0 in
  let lines := nonempty_lines (content options) in
  dflt (width options) Auto = Auto ->
  lines <> [] ->
  padding4 padding borderWidth
  = (padding_top padding + borderWidth, padding_right padding + borderWidth,
     padding_bottom padding + borderWidth, padding_left padding + borderWidth)
  /\ exists widest,
       In widest lines
       /\ (forall line, In line lines -> get_string_width line <= get_string_width widest)
       /\ fst (TextGraphics_size options)
          = get_string_width widest * fontSize
            + letterSpacing * (num_of_nat (length widest) - 1)
            + (padding_left padding + borderWidth)
            + (padding_right padding + borderWidth).
Proof.
  intros font fontSize letterSpacing padding borderWidth lines Hauto Hlines.
  split; [apply padding4_sides |].
  destruct (reduce_wider lines Hlines) as [widest [Hred [Hin Hmax]]].
  exists widest. split; [exact Hin |]. split; [exact Hmax |].
  unfold TextGraphics_size.
  fold font. fold padding. fold borderWidth. fold fontSize. fold letterSpacing.
  rewrite padding4_sides, TextGraphics_text_lines. fold lines.
  unfold deepCopy. rewrite Hred, Hauto. cbn [is_auto fst].
  ring.
Qed.

(** The padded box: three lines of which one is empty, a padding of four
    different sides, a border and a letter spacing. *)
Lemma C2_auto_width_witness :
  padding4 (Pad4 1 two (num_of_Z 3) four) two
  = (1 + two, two + two, num_of_Z 3 + two, four + two)
  /\ exists widest,
       In widest (nonempty_lines (content padded_box))
       /\ (forall line, In line (nonempty_lines (content padded_box)) ->
                        get_string_width line <= get_string_width widest)
       /\ fst (TextGraphics_size padded_box)
          = get_string_width widest * twelve
            + 1 * (num_of_nat (length widest) - 1)
            + (four + two) + (two + two).
Proof.
  apply (C2_auto_width padded_box).
  - reflexivity.
  - simpl. discriminate.
Defined.

(** The scenario of the specification: "OK" at font size 12, both
    dimensions "auto", resolves to 12 by 8; the padded box resolves to
    48 by 32. *)
Example OK_box_size :
  TextGraphics_size
    (Build_TextGraphicsOptions (Some (Str (line_of_string "OK"))) None None
       (Some (font_of_size twelve)) (Some Auto) (Some Auto))
  = (twelve, num_of_Z 8)
  /\ TextGraphics_size padded_box = (num_of_Z 48, num_of_Z 32).
Proof. split; apply injective_projections; apply Qc_is_canon; reflexivity. Qed.

Lemma even_mod2 (n : nat) : Nat.eqb (n mod 2) 0 = Nat.even n.
Proof.
  destruct (Nat.even n) eqn:E.
  - apply Nat.eqb_eq. apply Nat.even_spec in E. destruct E as [k ->].
    rewrite Nat.mul_comm. apply Nat.Div0.mod_mul.
  - apply Nat.eqb_neq. intro H.
    assert (Nat.even n = true); [| congruence].
    apply Nat.even_spec. exists (n / 2)%nat.
    pose proof (Nat.div_mod_eq n 2). lia.
Qed.

Lemma TextGraphics_text_Str (line : jsstring) :
  line <> [] -> TextGraphics_text (Some (Str line)) = [line].
Proof.
  intro H. destruct line as [| u line]; [contradiction | reflexivity].
Qed.

(** C10.  With height "auto" and at least one non-empty line, the resolved
    height is rows * fontSize + top padding + bottom padding
    + (rows - 1) * rowGap, with rows the number of non-empty lines of the
    content and the top and bottom padding those of the caller, each with
    the border width added to it, less 2 for an even number of rows and
    less 4 for an odd one.  So a single non-empty line at font size 4, with
    no padding and no border, resolves to height 0, and the render returns
    a canvas of height 0 on which nothing was painted. *)
Theorem C10_auto_height :
  (forall options : TextGraphicsOptions,
     let font := dflt (fontStyle options) no_font in
     let fontSize := dflt (fs_size font) twelve in
     let rowGap := dflt (fs_rowGap font) 0 in
     let padding := dflt (fs_padding font) (Pad1 0) in
     let borderWidth := dflt (bs_width (dflt (borderStyle options) no_border)) 0 in
     let rows := List.length (nonempty_lines (content options)) in
     dflt (height options) Auto = Auto ->
     rows <> 0%nat ->
     snd (TextGraphics_size options)
     = num_of_nat rows * fontSize
       + (padding_top padding + borderWidth) + (padding_bottom padding + borderWidth)
       + (num_of_nat rows - 1) * rowGap
       - (if Nat.even rows then two else four))
  /\ (forall loadImage toNumber parseColor (line : jsstring) background canvasWidth,
        line <> [] ->
        let options :=
          Build_TextGraphicsOptions (Some (Str line)) None background
            (Some (font_of_size four)) canvasWidth None in
        snd (TextGraphics_size options) = 0
        /\ TextGraphics loadImage toNumber parseColor options
           = inr (Build_Canvas (fst (TextGraphics_size options)) 0 [])).
Proof.
  split.
  - intros options font fontSize rowGap padding borderWidth rows Hauto Hrows.
    assert (Hlines : nonempty_lines (content options) <> []).
    { intro E. apply Hrows. unfold rows. rewrite E. reflexivity. }
    destruct (reduce_wider _ Hlines) as [widest [Hred _]].
    unfold TextGraphics_size.
    fold font. fold padding. fold borderWidth. fold fontSize. fold rowGap.
    rewrite padding4_sides, TextGraphics_text_lines.
    unfold deepCopy. rewrite Hred, Hauto.
    cbn [is_auto snd]. fold rows. rewrite even_mod2. ring.
  - intros loadImage toNumber parseColor line background canvasWidth Hline options.
    assert (Hsize : snd (TextGraphics_size options) = 0).
    { unfold TextGraphics_size, options.
      cbn [content borderStyle fontStyle width height dflt fs_size fs_padding fs_rowGap
             fs_letterSpacing bs_width no_border font_of_size].
      rewrite (TextGraphics_text_Str line Hline).
      cbn [deepCopy reduce fold_left List.length Nat.modulo Nat.eqb is_auto].
      change (padding4 (Pad1 0) 0) with (0, 0, 0, 0).
      cbn [snd Nat.divmod Nat.eqb].
      apply Qc_is_canon. reflexivity. }
    split; [exact Hsize |].
    unfold TextGraphics.
    destruct (TextGraphics_size options) as [w h]. cbn [snd fst] in *. subst h.
    cbn [borderStyle fontStyle dflt fs_padding bs_width no_border options font_of_size].
    change (padding4 (Pad1 0) 0) with (0, 0, 0, 0). cbv iota beta.
    rewrite truthy_0, andb_false_r. reflexivity.
Qed.

(** The padded box has two non-empty rows among its three lines; the single
    line "A" at font size 4 is painted on nothing. *)
Lemma C10_auto_height_witness :
  snd (TextGraphics_size padded_box)
  = num_of_nat 2 * twelve + (1 + two) + (num_of_Z 3 + two) + (num_of_nat 2 - 1) * two
    - (if Nat.even 2 then two else four)
  /\ (snd (TextGraphics_size
             (Build_TextGraphicsOptions (Some (Str (line_of_string "A"))) None None
                (Some (font_of_size four)) None None)) = 0
      /\ TextGraphics failing_loader nan_number sample_parser
           (Build_TextGraphicsOptions (Some (Str (line_of_string "A"))) None None
              (Some (font_of_size four)) None None)
         = inr (Build_Canvas
                  (fst (TextGraphics_size
                          (Build_TextGraphicsOptions (Some (Str (line_of_string "A")))
                             None None (Some (font_of_size four)) None None)))
                  0 [])).
Proof.
  split.
  - apply (proj1 C10_auto_height padded_box).
    + reflexivity.
    + simpl. discriminate.
  - apply (proj2 C10_auto_height failing_loader nan_number sample_parser
             (line_of_string "A") None None).
    simpl. discriminate.
Defined.

(** ** The keys of a gradient *)

Lemma insert_asc_perm (k : number) (l : list number) :
  Permutation (insert_asc k l) (k :: l).
Proof.
  induction l as [| k' l IH]; simpl.
  - apply Permutation_refl.
  - destruct (Qnum k <=? Qnum k')%Z.
    + apply Permutation_refl.
    + eapply perm_trans; [apply perm_skip, IH | apply perm_swap].
Qed.

Lemma sort_asc_perm (l : list number) : Permutation (sort_asc l) l.
Proof.
  induction l as [| k l IH]; simpl.
  - apply perm_nil.
  - eapply perm_trans; [apply insert_asc_perm | apply perm_skip, IH].
Qed.

Lemma filter_split_perm {A : Type} (f : A -> bool) (l : list A) :
  Permutation (filter f l ++ filter (fun x => negb (f x)) l) l.
Proof.
  induction l as [| x l IH]; simpl.
  - apply perm_nil.
  - destruct (f x); simpl.
    + apply perm_skip, IH.
    + apply Permutation_sym, Permutation_cons_app, Permutation_sym, IH.
Qed.

Lemma Object_keys_perm (g : LinearGradient) : Permutation (Object_keys g) (map fst g).
Proof.
  unfold Object_keys.
  eapply perm_trans; [| apply (filter_split_perm is_array_index)].
  apply Permutation_app_tail, sort_asc_perm.
Qed.


(** ** What the context accepts *)

Lemma ltb_nonneg (r : number) : 0 <= r -> ltb r 0 = false.
Proof.
  intro H. unfold ltb. destruct (r ?= 0) eqn:E; try reflexivity.
  apply Qclt_alt in E. exfalso. apply (Qcle_not_lt _ _ H E).
Qed.

Lemma ltb_true_iff (x y : number) : ltb x y = true <-> x < y.
Proof.
  unfold ltb. rewrite Qclt_alt.
  destruct (x ?= y); split; intro H; try reflexivity; discriminate.
Qed.

Lemma radii_nonnegative_radius4 (radius : option Radius) :
  radii_nonnegative radius ->
  forall lt rt rb lb,
    radius4 (dflt radius (Rad1 0)) = (lt, rt, rb, lb) ->
    0 <= lt /\ 0 <= rt /\ 0 <= rb /\ 0 <= lb.
Proof.
  intros H lt rt rb lb E. destruct radius as [[r | r0 r1 r2 r3] |];
    cbn [dflt radius4 radii_nonnegative] in *; inversion E; subst.
  - repeat split; exact H.
  - exact H.
  - repeat split; apply Qcle_refl.
Qed.

Lemma drawCtx_trace_accepted (width height : number) (radius : option Radius) :
  radii_nonnegative radius ->
  path_error (drawCtx_trace width height (dflt radius (Rad1 0))) = None.
Proof.
  intro H. unfold drawCtx_trace.
  destruct (radius4 (dflt radius (Rad1 0))) as [[[lt rt] rb] lb] eqn:E.
  destruct (radii_nonnegative_radius4 radius H _ _ _ _ E) as [H0 [H1 [H2 H3]]].
  destruct (truthy lt), (truthy rt), (truthy rb), (truthy lb);
    cbn [app path_error arc_error]; rewrite ?ltb_nonneg by assumption; reflexivity.
Qed.

Lemma drawBorder_path_accepted (width height : number) (radius : option Radius) :
  radii_nonnegative radius ->
  path_error (drawBorder_path width height (dflt radius (Rad1 0))) = None.
Proof.
  intro H. unfold drawBorder_path.
  destruct (radius4 (dflt radius (Rad1 0))) as [[[lt rt] rb] lb] eqn:E.
  destruct (radii_nonnegative_radius4 radius H _ _ _ _ E) as [H0 [H1 [H2 H3]]].
  cbn [path_error arc_error]. rewrite !ltb_nonneg by assumption. reflexivity.
Qed.

Lemma Rectangle_drawCtx_trace_accepted (width height : number) (radius : option Radius) :
  radii_nonnegative radius ->
  path_error (Rectangle.drawCtx_trace width height (dflt radius (Rad1 0))) = None.
Proof.
  intro H. unfold Rectangle.drawCtx_trace.
  destruct (radius4 (dflt radius (Rad1 0))) as [[[lt rt] rb] lb] eqn:E.
  destruct (radii_nonnegative_radius4 radius H _ _ _ _ E) as [H0 [H1 [H2 H3]]].
  cbn [path_error arc_error]. rewrite !ltb_nonneg by assumption. reflexivity.
Qed.

Lemma get_first (g : LinearGradient) (key : number) :
  In key (map fst g) -> exists c, get g key = Some c /\ In (key, c) g.
Proof.
  induction g as [| [k c] g IH]; intro H; [contradiction |].
  cbn [get]. unfold Qc_eq_bool. destruct (Qc_eq_dec k key) as [E | E].
  - subst k. exists c. split; [reflexivity | left; reflexivity].
  - destruct H as [H | H]; [contradiction |].
    destruct (IH H) as [c' [Hget Hin]]. exists c'. split; [exact Hget | right; exact Hin].
Qed.

Lemma addColorStop_accepted parseColor (g : LinearGradient) (key : number) :
  gradient_accepted parseColor g ->
  In key (map fst g) ->
  addColorStop_error parseColor key (get g key) = None.
Proof.
  intros Hg Hin. destruct (get_first g key Hin) as [c [Hget Hc]].
  unfold gradient_accepted in Hg. rewrite Forall_forall in Hg.
  destruct (Hg _ Hc) as [H0 [H1 Hp]]. cbn [fst snd] in *.
  unfold addColorStop_error. rewrite Hget, Hp, (ltb_nonneg _ H0).
  replace (gtb key 1) with false by (symmetry; apply gtb_false_iff; exact H1).
  reflexivity.
Qed.

Lemma addColorStops_accepted parseColor (g : LinearGradient) (keys : list number) :
  (forall key, In key keys -> addColorStop_error parseColor key (get g key) = None) ->
  addColorStops parseColor g keys
  = inr (map (fun key => addColorStop key (get g key)) keys).
Proof.
  induction keys as [| key keys IH]; intro H; [reflexivity |].
  cbn [addColorStops map]. rewrite (H key (or_introl eq_refl)), IH; [reflexivity |].
  intros k Hk. apply H. right; exact Hk.
Qed.

Lemma addColorStops_stops parseColor (g : LinearGradient) (keys : list number)
    (stops : list CtxCall) :
  addColorStops parseColor g keys = inr stops ->
  stops = map (fun key => addColorStop key (get g key)) keys.
Proof.
  revert stops. induction keys as [| key keys IH]; intros stops H.
  - inversion H. reflexivity.
  - cbn [addColorStops] in H.
    destruct (addColorStop_error parseColor key (get g key)); [discriminate |].
    destruct (addColorStops parseColor g keys) as [e | stops']; [discriminate |].
    inversion H; subst. cbn [map]. rewrite (IH stops' eq_refl). reflexivity.
Qed.

Lemma Object_keys_In (g : LinearGradient) (key : number) :
  In key (Object_keys g) -> In key (map fst g).
Proof. apply Permutation_in, Object_keys_perm. Qed.

Lemma drawCtx_fill_accepted parseColor (width height : number) (c : BackgroundColor) :
  match c with Gradient g => gradient_accepted parseColor g | Solid _ => True end ->
  exists fill, drawCtx_fill parseColor width height c = inr fill.
Proof.
  intro H. destruct c as [c | g]; [eexists; reflexivity |].
  unfold drawCtx_fill. rewrite addColorStops_accepted; [eexists; reflexivity |].
  intros key Hk. apply addColorStop_accepted; [exact H | apply Object_keys_In, Hk].
Qed.

(** With radii that are not negative and a fill that the context accepts,
    [drawCtx] fails only at the loading of the image: it makes its outline
    and fill calls, and then resolves, or rejects with the loader. *)
Lemma drawCtx_accepted loadImage toNumber parseColor (width height : number)
    (radius : option Radius) (background : option BackgroundStyle) :
  radii_nonnegative radius ->
  background_accepted parseColor background ->
  exists base,
    drawCtx loadImage toNumber parseColor width height radius background
    = match bg_image (dflt background no_background) with
      | Some src =>
          if truthy_str src then
            match loadImage src with
            | inl e => inl e
            | inr image =>
                inr (base
                     ++ drawCtx_image toNumber image
                          (bg_size (dflt background no_background))
                          (bg_position (dflt background no_background)))
            end
          else inr base
      | None => inr base
      end.
Proof.
  intros Hr Hb. unfold drawCtx.
  destruct (negb (truthy_color (bg_color (dflt background no_background)))
            && negb (truthy_ostr (bg_image (dflt background no_background)))) eqn:G.
  - exists []. apply andb_true_iff in G. destruct G as [_ G].
    destruct (bg_image (dflt background no_background)) as [src |]; [| reflexivity].
    cbn [truthy_ostr] in G. destruct (truthy_str src); [discriminate | reflexivity].
  - rewrite (drawCtx_trace_accepted width height radius Hr).
    assert (Hfill : exists fill,
      match bg_color (dflt background no_background) with
      | Some c =>
          if truthy_color (bg_color (dflt background no_background))
          then drawCtx_fill parseColor width height c else inr []
      | None => inr []
      end = inr fill).
    { unfold background_accepted in Hb.
      destruct (bg_color (dflt background no_background)) as [c |];
        [| eexists; reflexivity].
      destruct (truthy_color (Some c)); [| eexists; reflexivity].
      apply drawCtx_fill_accepted. destruct c; [exact I | exact Hb]. }
    destruct Hfill as [fill Hfill]. rewrite Hfill.
    exists ((map path (drawCtx_trace width height (dflt radius (Rad1 0))) ++ [clip])
            ++ fill).
    destruct (bg_image (dflt background no_background)) as [src |]; [| reflexivity].
    destruct (truthy_str src); [| reflexivity].
    destruct (loadImage src); [reflexivity |]. rewrite <- !app_assoc. reflexivity.
Qed.

Lemma drawBorder_accepted (width height : number) (borderStyle : option BorderStyle) :
  radii_nonnegative (bs_radius (dflt borderStyle no_border)) ->
  exists border, drawBorder width height borderStyle = inr border.
Proof.
  intro H. unfold drawBorder. destruct (negb _ || negb _); [eexists; reflexivity |].
  rewrite (drawBorder_path_accepted _ _ _ H). eexists; reflexivity.
Qed.

(** ** The orchestrator *)

(** The whole pipeline on "OK" over a red 100 by 50 box: a rectangular
    clip, the fill, no border, and the two characters 6 apart. *)
Example red_box_render :
  TextGraphics failing_loader nan_number sample_parser red_box
  = inr (Build_Canvas hundred (num_of_Z 50)
           [ path (moveTo 0 0);
             path (lineTo hundred 0);
             path (lineTo hundred (num_of_Z 50));
             path (lineTo 0 (num_of_Z 50));
             clip;
             set_fillStyle "#f00";
             fillRect 0 0 hundred (num_of_Z 50);
             set_font "normal" "normal" "normal" twelve 1 "微软雅黑";
             set_fillStyle "#000";
             set_textAlign "left";
             set_textBaseline "middle";
             set_strokeStyle "#000";
             set_lineWidth 0;
             fillText [79]%N 0 (num_of_Z 6);
             fillText [75]%N (num_of_Z 6) (num_of_Z 6) ]).
Proof. reflexivity. Qed.

(** The box of the real run: a gradient whose second colour is no colour
    rejects with a SyntaxError although no image is set, and a negative
    radius rejects with an IndexSizeError. *)
Example rejected_by_the_context :
  TextGraphics failing_loader nan_number sample_parser
    (Build_TextGraphicsOptions (Some (Str (line_of_string "OK"))) None
       (Some (Build_BackgroundStyle
                (Some (Gradient [(0, "#fff"%string); (1, "nocolour"%string)]))
                None None None))
       None (Some (Px hundred)) (Some (Px (num_of_Z 50))))
  = inl SyntaxError
  /\ TextGraphics failing_loader nan_number sample_parser
       (with_borderStyle red_box
          (Some (Build_BorderStyle None None (Some (Rad1 (- (1)))))))
     = inl IndexSizeError.
Proof. split; reflexivity. Qed.

(** C5.  With the content absent and both dimensions "auto", the resolved
    size is 0 by 0 and the call resolves to a canvas of that size on which
    no painter made a call; the image loader has no part in the result. *)
Theorem C5_absent_content loadImage toNumber parseColor (options : TextGraphicsOptions) :
  content options = None ->
  dflt (width options) Auto = Auto ->
  dflt (height options) Auto = Auto ->
  TextGraphics_size options = (0, 0)
  /\ TextGraphics loadImage toNumber parseColor options = inr (Build_Canvas 0 0 []).
Proof.
  intros Hc Hw Hh.
  assert (Hsize : TextGraphics_size options = (0, 0)).
  { unfold TextGraphics_size. rewrite Hc, Hw, Hh.
    destruct (padding4 _ _) as [[[top right] bottom] left].
    reflexivity. }
  split; [exact Hsize |].
  unfold TextGraphics. rewrite Hsize.
  destruct (padding4 _ _) as [[[top right] bottom] left].
  rewrite truthy_0. reflexivity.
Qed.

(** A box with a background image and a border but no content. *)
Lemma C5_absent_content_witness :
  TextGraphics_size
    (Build_TextGraphicsOptions None
       (Some (Build_BorderStyle (Some "#000"%string) (Some two) None))
       (Some (Build_BackgroundStyle (Some (Solid "#fff")) (Some "tile.png"%string)
                None None))
       None None (Some Auto)) = (0, 0)
  /\ TextGraphics failing_loader nan_number sample_parser
       (Build_TextGraphicsOptions None
          (Some (Build_BorderStyle (Some "#000"%string) (Some two) None))
          (Some (Build_BackgroundStyle (Some (Solid "#fff")) (Some "tile.png"%string)
                   None None))
          None None (Some Auto))
     = inr (Build_Canvas 0 0 []).
Proof.
  apply (C5_absent_content failing_loader nan_number sample_parser
           (Build_TextGraphicsOptions None
              (Some (Build_BorderStyle (Some "#000"%string) (Some two) None))
              (Some (Build_BackgroundStyle (Some (Solid "#fff")) (Some "tile.png"%string)
                       None None))
              None None (Some Auto))); reflexivity.
Defined.

Lemma path_error_value (p : list PathCmd) (e : error) :
  path_error p = Some e -> e = IndexSizeError.
Proof.
  induction p as [| c p IH]; [discriminate |]. cbn [path_error].
  destruct (arc_error c) as [e' |] eqn:E; [| exact IH].
  intro H; inversion H; subst. destruct c; try discriminate.
  cbn [arc_error] in E. destruct (ltb r 0); inversion E. reflexivity.
Qed.

Lemma addColorStops_error_value parseColor (g : LinearGradient) (keys : list number)
    (e : error) :
  addColorStops parseColor g keys = inl e -> e = IndexSizeError \/ e = SyntaxError.
Proof.
  induction keys as [| key keys IH]; [discriminate |]. cbn [addColorStops].
  destruct (addColorStop_error parseColor key (get g key)) as [e' |] eqn:E.
  - intro H; inversion H; subst. unfold addColorStop_error in E.
    destruct (ltb key 0 || gtb key 1); [inversion E; left; reflexivity |].
    destruct (get g key) as [c |]; [| inversion E; right; reflexivity].
    destruct (parseColor c); inversion E. right; reflexivity.
  - destruct (addColorStops parseColor g keys) as [e' | stops]; [| discriminate].
    intro H; inversion H; subst. apply IH. reflexivity.
Qed.

Lemma drawCtx_inl loadImage toNumber parseColor (width height : number)
    (radius : option Radius) (background : option BackgroundStyle) (e : error) :
  drawCtx loadImage toNumber parseColor width height radius background = inl e ->
  e = IndexSizeError \/ e = SyntaxError
  \/ exists src,
       bg_image (dflt background no_background) = Some src
       /\ truthy_str src = true
       /\ loadImage src = inl e.
Proof.
  unfold drawCtx. destruct (negb _ && negb _); [discriminate |].
  destruct (path_error _) as [e1 |] eqn:P.
  - intro H; inversion H; subst. left. apply (path_error_value _ _ P).
  - destruct (match bg_color (dflt background no_background) with
              | Some c => _
              | None => _
              end) as [e2 | fill] eqn:F.
    + intro H; inversion H; subst.
      destruct (bg_color (dflt background no_background)) as [c |]; [| discriminate].
      destruct (truthy_color (Some c)); [| discriminate].
      unfold drawCtx_fill in F. destruct c as [c | g]; [discriminate |].
      destruct (addColorStops parseColor g (Object_keys g)) as [e2 | stops] eqn:S;
        [| discriminate].
      inversion F; subst.
      destruct (addColorStops_error_value _ _ _ _ S); [left | right; left]; assumption.
    + destruct (bg_image (dflt background no_background)) as [src |] eqn:Himg;
        [| discriminate].
      destruct (truthy_str src) eqn:Hsrc; [| discriminate].
      destruct (loadImage src) as [e3 | image] eqn:Hload; [| discriminate].
      intro H; inversion H; subst. right; right. exists src. repeat split; assumption.
Qed.

Lemma drawCtx_load_rejects loadImage toNumber parseColor (width height : number)
    (radius : option Radius) (background : option BackgroundStyle)
    (src : string) (e : error) :
  bg_image (dflt background no_background) = Some src ->
  truthy_str src = true ->
  loadImage src = inl e ->
  exists e', drawCtx loadImage toNumber parseColor width height radius background = inl e'.
Proof.
  intros Himg Hsrc Hload. unfold drawCtx. rewrite Himg. cbn [truthy_ostr].
  rewrite Hsrc, andb_false_r.
  destruct (path_error _) as [e1 |]; [eexists; reflexivity |].
  destruct (match bg_color (dflt background no_background) with
            | Some c => _
            | None => _
            end) as [e2 | fill]; [eexists; reflexivity |].
  rewrite Hload. eexists; reflexivity.
Qed.

(** C8.  When the background image is set, the box has a non-zero resolved
    size and the image loader rejects, the whole call rejects and no canvas
    is returned: with the loader's error, or with the exception of the
    context where the outline or the fill made before the load was refused.
    The call rejects with the loader's error whenever the load is reached,
    that is when the context has accepted that outline and fill (no
    negative radius, no refused gradient stop). *)
Theorem C8_image_failure loadImage toNumber parseColor (options : TextGraphicsOptions)
    (src : string) (e : error) :
  bg_image (dflt (backgroundStyle options) no_background) = Some src ->
  truthy_str src = true ->
  truthy (fst (TextGraphics_size options)) = true ->
  truthy (snd (TextGraphics_size options)) = true ->
  loadImage src = inl e ->
  (exists e',
     TextGraphics loadImage toNumber parseColor options = inl e'
     /\ (e' = e \/ e' = IndexSizeError \/ e' = SyntaxError))
  /\ (radii_nonnegative (bs_radius (dflt (borderStyle options) no_border)) ->
      background_accepted parseColor (backgroundStyle options) ->
      TextGraphics loadImage toNumber parseColor options = inl e).
Proof.
  intros Himg Hsrc Hw Hh Hload.
  unfold TextGraphics.
  destruct (padding4 _ _) as [[[top right] bottom] left].
  destruct (TextGraphics_size options) as [w h]. cbn [fst snd] in Hw, Hh.
  rewrite Hw, Hh. cbn [andb]. split.
  - destruct (drawCtx_load_rejects loadImage toNumber parseColor w h
                (Some (dflt (bs_radius (dflt (borderStyle options) no_border)) (Rad1 0)))
                (Some (dflt (backgroundStyle options) no_background)) src e)
      as [e' He']; try assumption.
    rewrite He'. exists e'. split; [reflexivity |].
    apply drawCtx_inl in He'. cbn [dflt] in He'.
    destruct He' as [E | [E | [src' [Himg' [_ Hload']]]]];
      [right; left; exact E | right; right; exact E | left].
    rewrite Himg in Himg'. inversion Himg'; subst src'.
    rewrite Hload in Hload'. inversion Hload'. reflexivity.
  - intros Hr Hb.
    destruct (drawCtx_accepted loadImage toNumber parseColor w h
                (Some (dflt (bs_radius (dflt (borderStyle options) no_border)) (Rad1 0)))
                (Some (dflt (backgroundStyle options) no_background))) as [base Hbase].
    + destruct (bs_radius (dflt (borderStyle options) no_border)) as [r |];
        [exact Hr | apply Qcle_refl].
    + unfold background_accepted in *. cbn [dflt].
      destruct (backgroundStyle options); exact Hb.
    + rewrite Hbase. cbn [dflt]. rewrite Himg, Hsrc, Hload. reflexivity.
Qed.

(** A 100 by 50 box whose image cannot be loaded. *)
Lemma C8_image_failure_witness :
  (exists e',
     TextGraphics failing_loader nan_number sample_parser
       (Build_TextGraphicsOptions (Some (Str (line_of_string "OK"))) None
          (Some (Build_BackgroundStyle (Some (Solid "#fff")) (Some "tile.png"%string)
                   None None))
          None (Some (Px hundred)) (Some (Px (num_of_Z 50))))
     = inl e'
     /\ (e' = "cannot load tile.png"%string \/ e' = IndexSizeError \/ e' = SyntaxError))
  /\ TextGraphics failing_loader nan_number sample_parser
       (Build_TextGraphicsOptions (Some (Str (line_of_string "OK"))) None
          (Some (Build_BackgroundStyle (Some (Solid "#fff")) (Some "tile.png"%string)
                   None None))
          None (Some (Px hundred)) (Some (Px (num_of_Z 50))))
     = inl "cannot load tile.png"%string.
Proof.
  destruct (C8_image_failure failing_loader nan_number sample_parser
              (Build_TextGraphicsOptions (Some (Str (line_of_string "OK"))) None
                 (Some (Build_BackgroundStyle (Some (Solid "#fff"))
                          (Some "tile.png"%string) None None))
                 None (Some (Px hundred)) (Some (Px (num_of_Z 50))))
              "tile.png"%string "cannot load tile.png"%string
              eq_refl eq_refl eq_refl eq_refl eq_refl) as [H1 H2].
  split; [exact H1 |]. apply H2; exact I.
Defined.

(** ** Text layout *)


Lemma _calculateLeft_offset (available width : number) (textAlign : TextAlign) :
  _calculateLeft available width textAlign = offset textAlign available width.
Proof.
  unfold _calculateLeft, offset. destruct textAlign.
  - reflexivity.
  - apply Qcplus_0_l.
  - apply Qcplus_0_l.
Qed.

Lemma sum_app (l1 l2 : list number) : sum (l1 ++ l2) = sum l1 + sum l2.
Proof.
  induction l1 as [| a l1 IH]; simpl.
  - ring.
  - fold (sum (l1 ++ l2)). fold (sum l1). rewrite IH. ring.
Qed.

Lemma get_char_width_widthFactor (char : jsstring) :
  get_char_width char = widthFactor char.
Proof.
  unfold get_char_width, widthFactor.
  replace (0 <=? charCodeAt0 char)%N with true by (symmetry; apply N.leb_le, N.le_0_l).
  rewrite andb_true_r. reflexivity.
Qed.

Lemma advance_sum (cs : list jsstring) (fontSize letterSpacing : number) :
  advance cs fontSize letterSpacing
  = fontSize * sum (map widthFactor cs) + letterSpacing * num_of_nat (List.length cs).
Proof.
  unfold advance. induction cs as [| c cs IH].
  - simpl. rewrite num_of_nat_0. ring.
  - cbn [map sum fold_right List.length].
    fold (sum (map (fun char => fontSize * get_char_width char + letterSpacing) cs)).
    fold (sum (map widthFactor cs)).
    rewrite IH, num_of_nat_S, get_char_width_widthFactor. ring.
Qed.

(** The last character of a row is painted where the pen stands after the
    characters before it. *)
Lemma drawRowText_loop_last (cs : list jsstring) (c : jsstring)
    (_left _top fontSize borderWidth letterSpacing : number) :
  drawRowText_loop (cs ++ [c]) _left _top fontSize borderWidth letterSpacing
  = drawRowText_loop cs _left _top fontSize borderWidth letterSpacing
    ++ fillText c (_left + advance cs fontSize letterSpacing) _top
       :: (if truthy borderWidth
           then [strokeText c (_left + advance cs fontSize letterSpacing) _top]
           else []).
Proof.
  revert _left. induction cs as [| a cs IH]; intro _left.
  - cbn [app drawRowText_loop]. unfold advance. cbn [map sum fold_right].
    rewrite Qcplus_0_r, app_nil_r. reflexivity.
  - cbn [app drawRowText_loop]. rewrite IH.
    change (advance (a :: cs) fontSize letterSpacing)
      with (fontSize * get_char_width a + letterSpacing
            + advance cs fontSize letterSpacing).
    rewrite (Qcplus_assoc _left (fontSize * get_char_width a + letterSpacing)
               (advance cs fontSize letterSpacing)).
    rewrite <- app_assoc. reflexivity.
Qed.





(** X22.  What is measured is what is painted: on a line without surrogates, the
    last glyph of the row is filled at the row's start plus the line width
    less that glyph's own width, so a right-aligned row ends at the
    available width. *)
Lemma drawRowText_right_edge (s : jsstring) (u : N)
    (left top fontSize borderWidth letterSpacing : number) :
  Forall (fun u => is_high_surrogate u = false) (s ++ [u]) ->
  exists before after x,
    drawRowText (s ++ [u]) left top fontSize borderWidth letterSpacing
    = before ++ fillText [u] x top :: after
    /\ after = (if truthy borderWidth then [strokeText [u] x top] else [])
    /\ x + fontSize * get_char_width [u]
       = left + lineWidth (s ++ [u]) fontSize letterSpacing.
Proof.
  intro H. unfold drawRowText.
  rewrite (chars_no_surrogate _ H), map_app. cbn [map].
  rewrite drawRowText_loop_last.
  do 3 eexists. split; [reflexivity |]. split; [reflexivity |].
  unfold lineWidth. rewrite get_string_width_sum, (chars_no_surrogate _ H).
  rewrite advance_sum, !map_app, sum_app, length_map. unfold length.
  rewrite length_app. cbn [map sum fold_right List.length].
  rewrite Nat.add_1_r, num_of_nat_S, get_char_width_widthFactor.
  unfold jsstring. ring.
Qed.

(** The scenario of the specification: the lines "A" and "文",
    right-aligned in an available width of 20 at font size 12, start at
    20 - 6 and at 20 - 12. *)
Example right_aligned_lines :
  let font := Build_FontStyle None None None (Some twelve) None None None None None
                (Some AlignRight) None None None in
  let twenty := num_of_Z 20 in
  drawText [[65]; [25991]]%N (Some twenty) (Some font) None None None
  = [ set_font "normal" "normal" "normal" twelve 1 "微软雅黑";
      set_fillStyle "#000";
      set_textAlign "left";
      set_textBaseline "middle";
      set_strokeStyle "#000";
      set_lineWidth 0;
      fillText [65]%N (num_of_Z 14) (num_of_Z 6);
      fillText [25991]%N (num_of_Z 8) (num_of_Z 18) ].
Proof.
  cbv zeta. unfold drawText.
  cbn [dflt fs_color fs_textAlign fs_style fs_variant fs_weight fs_size fs_lineHeight
         fs_family fs_borderColor fs_borderWidth fs_letterSpacing forEach app].
  repeat apply f_equal. reflexivity.
Qed.

(** ** The background painter *)









Lemma three_stops_accepted : gradient_accepted sample_parser three_stops.
Proof.
  repeat constructor; cbn [fst snd]; unfold Qcle; simpl; discriminate.
Qed.



(** ** The border painter *)

Lemma drawBorder_skipped (width height : number) (borderStyle : option BorderStyle) :
  truthy (dflt (bs_width (dflt borderStyle no_border)) 0) = false
  \/ truthy_ostr (bs_color (dflt borderStyle no_border)) = false ->
  drawBorder width height borderStyle = inr [].
Proof.
  intros [H | H]; unfold drawBorder; rewrite H; cbn [negb orb];
    [| rewrite orb_true_r]; reflexivity.
Qed.

Lemma drawCtx_trace_radius4 (width height : number) (r1 r2 : Radius) :
  radius4 r1 = radius4 r2 -> drawCtx_trace width height r1 = drawCtx_trace width height r2.
Proof. intro H. unfold drawCtx_trace. rewrite H. reflexivity. Qed.

Lemma drawCtx_radius4 loadImage toNumber parseColor (width height : number)
    (r1 r2 : Radius) (background : option BackgroundStyle) :
  radius4 r1 = radius4 r2 ->
  drawCtx loadImage toNumber parseColor width height (Some r1) background
  = drawCtx loadImage toNumber parseColor width height (Some r2) background.
Proof.
  intro H. unfold drawCtx. cbn [dflt].
  rewrite (drawCtx_trace_radius4 width height r1 r2 H). reflexivity.
Qed.

(** When a zero-width border is replaced by a border style of the same
    corner radii, nothing changes. *)
Lemma TextGraphics_zero_width loadImage toNumber parseColor
    (options : TextGraphicsOptions) (color : option string) (r1 r2 : option Radius) :
  radius4 (dflt r1 (Rad1 0)) = radius4 (dflt r2 (Rad1 0)) ->
  TextGraphics loadImage toNumber parseColor
    (with_borderStyle options (Some (Build_BorderStyle color (Some 0) r1)))
  = TextGraphics loadImage toNumber parseColor
      (with_borderStyle options (Some (Build_BorderStyle None None r2))).
Proof.
  intro Hr.
  assert (Hsize :
    TextGraphics_size
      (with_borderStyle options (Some (Build_BorderStyle color (Some 0) r1)))
    = TextGraphics_size
        (with_borderStyle options (Some (Build_BorderStyle None None r2))))
    by reflexivity.
  unfold TextGraphics. rewrite Hsize.
  destruct (TextGraphics_size _) as [w h].
  cbn [with_borderStyle content borderStyle backgroundStyle fontStyle width height dflt
         bs_width bs_radius].
  destruct (padding4 _ _) as [[[top right] bottom] left].
  rewrite (drawCtx_radius4 loadImage toNumber parseColor _ _ _ _ _ Hr).
  rewrite !drawBorder_skipped by (left; apply truthy_0).
  reflexivity.
Qed.

(** C3, as amended.  In the full preset [drawBorder] makes no call on the
    context when the border width is 0 or unset, or the border colour is
    unset or empty.  Rendering with an explicit zero-width border gives the
    same outcome as rendering with a border style that keeps only the
    corner radii, and the same as rendering with no border style at all
    when those radii are absent or all zero. *)
Theorem C3_zero_width_border loadImage toNumber parseColor :
  (forall width height borderStyle,
     truthy (dflt (bs_width (dflt borderStyle no_border)) 0) = false
     \/ truthy_ostr (bs_color (dflt borderStyle no_border)) = false ->
     drawBorder width height borderStyle = inr [])
  /\ (forall options color radius,
        TextGraphics loadImage toNumber parseColor
          (with_borderStyle options (Some (Build_BorderStyle color (Some 0) radius)))
        = TextGraphics loadImage toNumber parseColor
            (with_borderStyle options (Some (Build_BorderStyle None None radius))))
  /\ (forall options color radius,
        radius4 (dflt radius (Rad1 0)) = (0, 0, 0, 0) ->
        TextGraphics loadImage toNumber parseColor
          (with_borderStyle options (Some (Build_BorderStyle color (Some 0) radius)))
        = TextGraphics loadImage toNumber parseColor (with_borderStyle options None)).
Proof.
  split; [| split].
  - apply drawBorder_skipped.
  - intros options color radius. apply TextGraphics_zero_width. reflexivity.
  - intros options color radius Hr.
    rewrite (TextGraphics_zero_width loadImage toNumber parseColor options color radius None)
      by (rewrite Hr; reflexivity).
    reflexivity.
Qed.

(** A black border of width 0 on the red box. *)
Lemma C3_zero_width_border_witness :
  drawBorder hundred hundred (Some (Build_BorderStyle (Some "#000"%string) (Some 0) None))
  = inr []
  /\ drawBorder hundred hundred (Some (Build_BorderStyle None (Some two) None)) = inr []
  /\ TextGraphics sample_loader nan_number sample_parser
       (with_borderStyle red_box
          (Some (Build_BorderStyle (Some "#000"%string) (Some 0) (Some (Rad4 0 0 0 0)))))
     = TextGraphics sample_loader nan_number sample_parser (with_borderStyle red_box None).
Proof.
  split; [| split].
  - apply (proj1 (C3_zero_width_border sample_loader nan_number sample_parser)).
    left. reflexivity.
  - apply (proj1 (C3_zero_width_border sample_loader nan_number sample_parser)).
    right. reflexivity.
  - apply (proj2 (proj2 (C3_zero_width_border sample_loader nan_number sample_parser))).
    reflexivity.
Defined.

(** C3 as stated fails when the zero-width border carries corner radii: the
    radii of the border style also shape the background clip, so the red
    box with the border style {width: 0, radius: 5} is not the red box with
    no border style. *)
Lemma C3_zero_width_radius_counterexample :
  TextGraphics failing_loader nan_number sample_parser
    (with_borderStyle red_box
       (Some (Build_BorderStyle None (Some 0) (Some (Rad1 (num_of_Z 5))))))
  <> TextGraphics failing_loader nan_number sample_parser (with_borderStyle red_box None).
Proof.
  intro H. vm_compute in H. discriminate H.
Qed.

(** In the minimal preset the border is stroked whatever its width: the
    border pass either throws on its path or strokes it. *)
Lemma Rectangle_drawBorder_always_strokes (width height : number)
    (borderStyle : option BorderStyle) (calls : list CtxCall) :
  Rectangle.drawBorder width height borderStyle = inr calls ->
  exists lineWidth strokeStyle p,
    calls = [set_lineWidth lineWidth; set_strokeStyle strokeStyle; stroke p].
Proof.
  unfold Rectangle.drawBorder. destruct (path_error _); [discriminate |].
  intro H; inversion H. repeat eexists.
Qed.

(** ** The outline of the box *)

(** Both presets build the same border path. *)
Lemma Rectangle_drawBorder_path (width height : number) (borderRadius : Radius) :
  Rectangle.drawBorder_path width height borderRadius
  = drawBorder_path width height borderRadius.
Proof. reflexivity. Qed.

(** X23.  With one radius for the four corners, the border path and the
    background outline round the same corners with the same arcs. *)
Lemma uniform_radius_rounded_corners (width height r : number) :
  Permutation (rounded_corners (drawBorder_path width height (Rad1 r)))
              (rounded_corners (drawCtx_trace width height (Rad1 r))).
Proof.
  unfold drawBorder_path, drawCtx_trace. cbn [radius4].
  destruct (truthy r) eqn:T; cbn [app rounded_corners]; rewrite ?T.
  - apply Permutation_sym.
    change (Permutation
              ([(0 + r, 0 + r, r)]
               ++ [(0 + width - r, 0 + r, r); (0 + width - r, 0 + height - r, r);
                   (0 + r, 0 + height - r, r)])
              ([(0 + width - r, 0 + r, r); (0 + width - r, 0 + height - r, r);
                (0 + r, 0 + height - r, r)]
               ++ [(0 + r, 0 + r, r)])).
    apply Permutation_app_comm.
  - apply perm_nil.
Qed.

(** C1, evaluated where it fails.  On a 100 by 50 box with the radii
    [10, 0, 0, 0] the background outline rounds the top-left corner (an arc
    centred at (10, 10)) and reaches the top-right corner (100, 0) by a
    straight line, while the border path rounds the top-right corner (an arc
    centred at (90, 10)) and never passes through (100, 0): the border
    applies the top-left radius to the top-right corner. *)
Theorem C1_border_radii_on_wrong_corners :
  let radius := Rad4 (num_of_Z 10) 0 0 0 in
  let fifty := num_of_Z 50 in
  rounded_corners (drawCtx_trace hundred fifty radius)
  = [(num_of_Z 10, num_of_Z 10, num_of_Z 10)]
  /\ rounded_corners (drawBorder_path hundred fifty radius)
     = [(num_of_Z 90, num_of_Z 10, num_of_Z 10)]
  /\ In (lineTo hundred 0) (drawCtx_trace hundred fifty radius)
  /\ ~ In (lineTo hundred 0) (drawBorder_path hundred fifty radius).
Proof.
  cbv zeta. split; [| split; [| split]].
  - reflexivity.
  - reflexivity.
  - right. left. reflexivity.
  - intro H. vm_compute in H.
    repeat (destruct H as [H | H]; [discriminate H |]). exact H.
Qed.

(** ** The caller's content *)

Lemma rectangle_content_after (lines : list jsstring)
    (borderStyle : option BorderStyle) (backgroundColor : option string)
    (fontStyle : option Rectangle.FontStyle) (height : option Dimension) :
  Rectangle.content_after
    (Rectangle.rectangle
       (Rectangle.Build_RectangleOptions (Some (Arr lines)) borderStyle backgroundColor
          fontStyle None height))
  = Some (Arr (Rectangle.sort lines)).
Proof.
  unfold Rectangle.rectangle.
  destruct (padding4 _ _) as [[[top right] bottom] left].
  assert (Hsize :
    snd (Rectangle.rectangle_size
           (Rectangle.Build_RectangleOptions (Some (Arr lines)) borderStyle
              backgroundColor fontStyle None height))
    = Some (Arr (Rectangle.sort lines))).
  { unfold Rectangle.rectangle_size.
    cbn [Rectangle.content Rectangle.width dflt Rectangle.truthy_content is_auto
           andb orb].
    destruct (padding4 _ _) as [[[t r] b] l].
    destruct (Rectangle.sort lines); reflexivity. }
  destruct (Rectangle.rectangle_size _) as [[e | [w h]] content1];
    cbn [snd] in Hsize; subst content1.
  - reflexivity.
  - destruct (truthy w && truthy h); [| reflexivity].
    destruct (Rectangle.drawCtx _ _ _ _); [reflexivity |].
    destruct (Rectangle.drawBorder _ _ _); reflexivity.
Qed.

(** C9, evaluated where it fails.  The minimal preset called on
    ["a", "bbb"] with width "auto" leaves the caller's array as
    ["bbb", "a"], and paints the lines in that order. *)
Theorem C9_rectangle_reorders_content :
  Rectangle.content_after (Rectangle.rectangle two_lines_rectangle)
  = Some (Arr [line_of_string "bbb"; line_of_string "a"])
  /\ Rectangle.content_after (Rectangle.rectangle two_lines_rectangle)
     <> Rectangle.content two_lines_rectangle
  /\ exists canvas,
       Rectangle.result (Rectangle.rectangle two_lines_rectangle) = inr canvas
       /\ skipn 18 (canvas_calls canvas)
          = [ fillText (line_of_string "bbb") 0 twelve;
              fillText (line_of_string "a") 0 (num_of_Z 24) ].
Proof.
  split; [| split].
  - reflexivity.
  - intro H. vm_compute in H. discriminate H.
  - eexists. split; [reflexivity |].
    cbn [skipn canvas_calls]. repeat apply f_equal. reflexivity.
Qed.

(** * Further properties of the painters *)

(** ** Characters and their widths *)

Lemma Qc_0_le_1 : 0 <= 1.
Proof. unfold Qcle. simpl. discriminate. Qed.

Lemma Qc_half_le_1 : half <= 1.
Proof. unfold Qcle. simpl. discriminate. Qed.

Lemma Qc_0_le_half : 0 <= half.
Proof. unfold Qcle. simpl. discriminate. Qed.

Lemma num_of_nat_nonneg (n : nat) : 0 <= num_of_nat n.
Proof.
  induction n as [| n IH]; [apply Qcle_refl |].
  rewrite num_of_nat_S. rewrite <- (Qcplus_0_l 0).
  apply Qcplus_le_compat; [exact IH | exact Qc_0_le_1].
Qed.

Lemma num_of_nat_add (n m : nat) : num_of_nat (n + m) = num_of_nat n + num_of_nat m.
Proof. unfold num_of_nat. rewrite Nat2Z.inj_add. apply num_of_Z_add. Qed.

Lemma num_of_nat_le (n m : nat) : (n <= m)%nat -> num_of_nat n <= num_of_nat m.
Proof.
  intro H. replace m with (n + (m - n))%nat by lia. rewrite num_of_nat_add.
  rewrite <- (Qcplus_0_r (num_of_nat n)) at 1.
  apply Qcplus_le_compat; [apply Qcle_refl | apply num_of_nat_nonneg].
Qed.

Lemma widthFactor_bounds (char : jsstring) : half <= widthFactor char <= 1.
Proof.
  unfold widthFactor. destruct (charCodeAt0 char <? 128)%N; split;
    try apply Qcle_refl; exact Qc_half_le_1.
Qed.

Lemma sum_widthFactor_bounds (cs : list jsstring) :
  half * num_of_nat (List.length cs) <= sum (map widthFactor cs)
  /\ sum (map widthFactor cs) <= num_of_nat (List.length cs).
Proof.
  induction cs as [| c cs [IHl IHu]].
  - simpl. rewrite num_of_nat_0, Qcmult_0_r. split; apply Qcle_refl.
  - cbn [map sum fold_right List.length]. fold (sum (map widthFactor cs)).
    rewrite num_of_nat_S. destruct (widthFactor_bounds c) as [Hl Hu]. split.
    + replace (half * (num_of_nat (List.length cs) + 1))
        with (half + half * num_of_nat (List.length cs)) by ring.
      apply Qcplus_le_compat; assumption.
    + rewrite (Qcplus_comm (num_of_nat (List.length cs)) 1).
      apply Qcplus_le_compat; assumption.
Qed.

(** X1.  The width of a line lies between half the number of its characters
    and the number of its characters; it is never negative and never more
    than the length of the line in code units. *)
Theorem get_string_width_bounds (s : jsstring) :
  half * num_of_nat (List.length (chars s)) <= get_string_width s
  /\ get_string_width s <= num_of_nat (List.length (chars s))
  /\ 0 <= get_string_width s
  /\ get_string_width s <= num_of_nat (length s).
Proof.
  rewrite get_string_width_sum.
  destruct (sum_widthFactor_bounds (chars s)) as [Hl Hu].
  split; [exact Hl |]. split; [exact Hu |]. split.
  - eapply Qcle_trans; [| exact Hl].
    rewrite <- (Qcmult_0_r half).
    apply Qcle_trans with (half * 0); [apply Qcle_refl |].
    rewrite !(Qcmult_comm half).
    apply Qcmult_le_compat_r; [apply num_of_nat_nonneg | exact Qc_0_le_half].
  - eapply Qcle_trans; [exact Hu |]. apply num_of_nat_le, chars_length.
Qed.

(** X2.  In the minimal preset every character counts 1: the width of a line
    is the number of its characters (a surrogate pair counting once). *)
Theorem Rectangle_get_string_width_chars (s : jsstring) :
  Rectangle.get_string_width s = num_of_nat (List.length (chars s)).
Proof.
  unfold Rectangle.get_string_width.
  rewrite (fold_left_add
             (fun char => if ((charCodeAt0 char <? 128) && (0 <=? charCodeAt0 char))%N
                          then 1 else 1)).
  rewrite Qcplus_0_l.
  induction (chars s) as [| c cs IH].
  - reflexivity.
  - cbn [map sum fold_right List.length].
    fold (sum (map (fun char =>
                      if ((charCodeAt0 char <? 128) && (0 <=? charCodeAt0 char))%N
                      then 1 else 1) cs)).
    rewrite IH, num_of_nat_S.
    destruct ((charCodeAt0 c <? 128) && (0 <=? charCodeAt0 c))%N; ring.
Qed.

(** ** What the text pass paints *)

Lemma filled_texts_app (l1 l2 : list CtxCall) :
  filled_texts (l1 ++ l2) = filled_texts l1 ++ filled_texts l2.
Proof.
  induction l1 as [| c l1 IH]; [reflexivity |].
  destruct c; simpl; rewrite IH; reflexivity.
Qed.

Lemma stroked_texts_app (l1 l2 : list CtxCall) :
  stroked_texts (l1 ++ l2) = stroked_texts l1 ++ stroked_texts l2.
Proof.
  induction l1 as [| c l1 IH]; [reflexivity |].
  destruct c; simpl; rewrite IH; reflexivity.
Qed.

Lemma filled_texts_loop (cs : list jsstring)
    (_left _top fontSize borderWidth letterSpacing : number) :
  filled_texts (drawRowText_loop cs _left _top fontSize borderWidth letterSpacing) = cs.
Proof.
  revert _left. induction cs as [| c cs IH]; intro _left; [reflexivity |].
  cbn [drawRowText_loop filled_texts]. rewrite filled_texts_app, IH.
  destruct (truthy borderWidth); reflexivity.
Qed.

Lemma stroked_texts_loop (cs : list jsstring)
    (_left _top fontSize borderWidth letterSpacing : number) :
  stroked_texts (drawRowText_loop cs _left _top fontSize borderWidth letterSpacing)
  = if truthy borderWidth then cs else [].
Proof.
  revert _left. induction cs as [| c cs IH]; intro _left.
  - destruct (truthy borderWidth); reflexivity.
  - cbn [drawRowText_loop stroked_texts]. rewrite stroked_texts_app, IH.
    destruct (truthy borderWidth); reflexivity.
Qed.

(** X3.  [drawRowText] fills every character of the line once, in order:
    the filled texts are the characters of the line and, put end to end,
    they are the line itself.  Each character is also stroked when the text
    border width is non-zero, and none is otherwise. *)
Theorem drawRowText_paints_line (text : jsstring)
    (left top fontSize borderWidth letterSpacing : number) :
  let calls := drawRowText text left top fontSize borderWidth letterSpacing in
  filled_texts calls = chars text
  /\ List.concat (filled_texts calls) = text
  /\ stroked_texts calls = if truthy borderWidth then chars text else [].
Proof.
  cbv zeta. unfold drawRowText. rewrite filled_texts_loop, stroked_texts_loop.
  split; [reflexivity |]. split; [apply concat_chars | reflexivity].
Qed.

Lemma filled_texts_forEach {A : Type} (f : A -> nat -> list CtxCall)
    (g : A -> list jsstring) (l : list A) :
  (forall x idx, filled_texts (f x idx) = g x) ->
  forall idx, filled_texts (forEach f l idx) = flat_map g l.
Proof.
  intro H. induction l as [| x l IH]; intro idx; [reflexivity |].
  cbn [forEach flat_map]. rewrite filled_texts_app, H, IH. reflexivity.
Qed.

Lemma filled_texts_drawText (text : list jsstring) (maxTextLength : option number)
    (fontStyle : option FontStyle) (top left rowGap : option number) :
  filled_texts (drawText text maxTextLength fontStyle top left rowGap)
  = flat_map chars text.
Proof.
  unfold drawText. rewrite filled_texts_app. cbn [filled_texts app].
  apply filled_texts_forEach. intros line idx.
  unfold drawRowText. apply filled_texts_loop.
Qed.

Lemma filled_texts_path (l : list PathCmd) : filled_texts (map path l) = [].
Proof. induction l as [| c l IH]; [reflexivity | exact IH]. Qed.

Lemma filled_texts_drawCtx_fill parseColor (width height : number) (c : BackgroundColor)
    (fill : list CtxCall) :
  drawCtx_fill parseColor width height c = inr fill -> filled_texts fill = [].
Proof.
  unfold drawCtx_fill. destruct c as [c | g]; [intro H; inversion H; reflexivity |].
  destruct (addColorStops parseColor g (Object_keys g)) as [e | stops] eqn:S;
    [discriminate |].
  intro H; inversion H; subst. apply addColorStops_stops in S. subst stops.
  clear H. cbn [filled_texts]. rewrite filled_texts_app.
  induction (Object_keys g) as [| k ks IH]; [reflexivity | exact IH].
Qed.

Lemma filled_texts_drawCtx loadImage toNumber parseColor (width height : number)
    (radius : option Radius) (background : option BackgroundStyle)
    (calls : list CtxCall) :
  drawCtx loadImage toNumber parseColor width height radius background = inr calls ->
  filled_texts calls = [].
Proof.
  unfold drawCtx.
  destruct (negb _ && negb _); [intro H; inversion H; reflexivity |].
  destruct (path_error _); [discriminate |].
  destruct (match bg_color (dflt background no_background) with
            | Some c => _
            | None => _
            end) as [e | fill] eqn:F; [discriminate |].
  assert (Hfill : filled_texts fill = []).
  { destruct (bg_color (dflt background no_background)) as [c |];
      [| inversion F; reflexivity].
    destruct (truthy_color (Some c)); [| inversion F; reflexivity].
    apply (filled_texts_drawCtx_fill _ _ _ _ _ F). }
  assert (Hbase :
    filled_texts
      ((map path (drawCtx_trace width height (dflt radius (Rad1 0))) ++ [clip]) ++ fill)
    = []).
  { rewrite !filled_texts_app, filled_texts_path, Hfill. reflexivity. }
  destruct (bg_image _) as [src |].
  - destruct (truthy_str src).
    + destruct (loadImage src) as [e | image]; [discriminate |].
      intro H; inversion H; subst.
      rewrite app_assoc, filled_texts_app, Hbase.
      unfold drawCtx_image.
      destruct (if truthy_position _ then _ else _) as [x y].
      destruct (if truthy_size _ then _ else _) as [w h]. reflexivity.
    + intro H; inversion H; subst. exact Hbase.
  - intro H; inversion H; subst. exact Hbase.
Qed.

Lemma filled_texts_drawBorder (width height : number) (borderStyle : option BorderStyle)
    (border : list CtxCall) :
  drawBorder width height borderStyle = inr border -> filled_texts border = [].
Proof.
  unfold drawBorder. destruct (negb _ || negb _); [intro H; inversion H; reflexivity |].
  destruct (path_error _); [discriminate |]. intro H; inversion H; reflexivity.
Qed.

(** X4.  What a successful render fills: when the resolved width and height
    are both non-zero, the characters of the non-empty lines of the content,
    line after line and in order, and nothing else; no text at all when a
    resolved dimension is 0.  The background and border passes fill no
    text. *)
Theorem TextGraphics_filled_texts loadImage toNumber parseColor
    (options : TextGraphicsOptions) (canvas : Canvas) :
  TextGraphics loadImage toNumber parseColor options = inr canvas ->
  filled_texts (canvas_calls canvas)
  = if truthy (fst (TextGraphics_size options))
       && truthy (snd (TextGraphics_size options))
    then flat_map chars (TextGraphics_text (content options))
    else [].
Proof.
  unfold TextGraphics.
  destruct (padding4 _ _) as [[[top right] bottom] left].
  destruct (TextGraphics_size options) as [w h]. cbn [fst snd].
  destruct (truthy w && truthy h).
  - destruct (drawCtx _ _ _ _ _ _ _) as [e | background] eqn:Hbg; [discriminate |].
    destruct (drawBorder _ _ _) as [e | border] eqn:Hborder; [discriminate |].
    intro H; inversion H; subst. cbn [canvas_calls].
    rewrite !filled_texts_app, (filled_texts_drawCtx _ _ _ _ _ _ _ _ Hbg),
      (filled_texts_drawBorder _ _ _ _ Hborder), filled_texts_drawText. reflexivity.
  - intro H; inversion H; subst. reflexivity.
Qed.

(** The red box fills "O" and "K". *)
Lemma TextGraphics_filled_texts_witness :
  filled_texts
    (canvas_calls
       (Build_Canvas hundred (num_of_Z 50)
          [ path (moveTo 0 0);
            path (lineTo hundred 0);
            path (lineTo hundred (num_of_Z 50));
            path (lineTo 0 (num_of_Z 50));
            clip;
            set_fillStyle "#f00";
            fillRect 0 0 hundred (num_of_Z 50);
            set_font "normal" "normal" "normal" twelve 1 "微软雅黑";
            set_fillStyle "#000";
            set_textAlign "left";
            set_textBaseline "middle";
            set_strokeStyle "#000";
            set_lineWidth 0;
            fillText [79]%N 0 (num_of_Z 6);
            fillText [75]%N (num_of_Z 6) (num_of_Z 6) ]))
  = if truthy (fst (TextGraphics_size red_box)) && truthy (snd (TextGraphics_size red_box))
    then flat_map chars (TextGraphics_text (content red_box))
    else [].
Proof.
  apply (TextGraphics_filled_texts failing_loader nan_number sample_parser red_box).
  reflexivity.
Defined.

(** ** Rejections *)

Lemma drawCtx_inl_accepted loadImage toNumber parseColor (width height : number)
    (radius : option Radius) (background : option BackgroundStyle) (e : error) :
  radii_nonnegative radius ->
  background_accepted parseColor background ->
  drawCtx loadImage toNumber parseColor width height radius background = inl e
  <-> exists src,
        bg_image (dflt background no_background) = Some src
        /\ truthy_str src = true
        /\ loadImage src = inl e.
Proof.
  intros Hr Hb.
  destruct (drawCtx_accepted loadImage toNumber parseColor width height radius
              background Hr Hb) as [base Hbase].
  rewrite Hbase. split.
  - destruct (bg_image (dflt background no_background)) as [src |]; [| discriminate].
    destruct (truthy_str src) eqn:Hsrc; [| discriminate].
    destruct (loadImage src) as [e' | image] eqn:Hload; [| discriminate].
    intro H; inversion H; subst. exists src. repeat split; assumption.
  - intros [src [Himg [Hsrc Hload]]]. rewrite Himg, Hsrc, Hload. reflexivity.
Qed.

Lemma drawBorder_inl (width height : number) (borderStyle : option BorderStyle)
    (e : error) :
  drawBorder width height borderStyle = inl e -> e = IndexSizeError.
Proof.
  unfold drawBorder. destruct (negb _ || negb _); [discriminate |].
  destruct (path_error _) as [e' |] eqn:P; [| discriminate].
  intro H; inversion H; subst. apply (path_error_value _ _ P).
Qed.

(** X5.  [drawCtx] rejects from three sources only: an arc of negative
    radius or a gradient stop outside 0..1 (IndexSizeError), a gradient
    colour that does not parse (SyntaxError), and the loader of the
    background image.  On a box whose radii are not negative and whose
    gradient stops the context accepts, it rejects exactly when a background
    image is set (a non-empty source) and loading it rejects, and then with
    the loader's error. *)
Theorem drawCtx_rejects_iff loadImage toNumber parseColor (width height : number)
    (radius : option Radius) (background : option BackgroundStyle) (e : error) :
  (drawCtx loadImage toNumber parseColor width height radius background = inl e ->
   e = IndexSizeError \/ e = SyntaxError
   \/ exists src,
        bg_image (dflt background no_background) = Some src
        /\ truthy_str src = true
        /\ loadImage src = inl e)
  /\ (radii_nonnegative radius ->
      background_accepted parseColor background ->
      (drawCtx loadImage toNumber parseColor width height radius background = inl e
       <-> exists src,
             bg_image (dflt background no_background) = Some src
             /\ truthy_str src = true
             /\ loadImage src = inl e)).
Proof. split; [apply drawCtx_inl | apply drawCtx_inl_accepted]. Qed.

(** An image that cannot be loaded on a box with rounded corners. *)
Lemma drawCtx_rejects_iff_witness :
  drawCtx failing_loader nan_number sample_parser hundred twelve (Some (Rad1 four))
    (Some (Build_BackgroundStyle (Some (Gradient three_stops)) (Some "tile.png"%string)
             None None))
  = inl "cannot load tile.png"%string.
Proof.
  apply (proj2 (drawCtx_rejects_iff failing_loader nan_number sample_parser hundred
                  twelve (Some (Rad1 four))
                  (Some (Build_BackgroundStyle (Some (Gradient three_stops))
                           (Some "tile.png"%string) None None))
                  "cannot load tile.png"%string)).
  - unfold radii_nonnegative, Qcle. simpl. discriminate.
  - exact three_stops_accepted.
  - exists "tile.png"%string. repeat split.
Defined.

(** X6.  [TextGraphics] rejects only on a box of non-zero resolved width and
    height, and from three sources only: an arc of negative radius or a
    gradient stop outside 0..1 (IndexSizeError), a gradient colour that does
    not parse (SyntaxError), and the loader of the background image.  When
    the radii are not negative and the context accepts the gradient stops,
    it rejects exactly when the resolved width and height are both
    non-zero, a background image is set and loading it rejects, and then
    with the loader's error. *)
Theorem TextGraphics_rejects_iff loadImage toNumber parseColor
    (options : TextGraphicsOptions) (e : error) :
  (TextGraphics loadImage toNumber parseColor options = inl e ->
   truthy (fst (TextGraphics_size options)) = true
   /\ truthy (snd (TextGraphics_size options)) = true
   /\ (e = IndexSizeError \/ e = SyntaxError
       \/ exists src,
            bg_image (dflt (backgroundStyle options) no_background) = Some src
            /\ truthy_str src = true
            /\ loadImage src = inl e))
  /\ (radii_nonnegative (bs_radius (dflt (borderStyle options) no_border)) ->
      background_accepted parseColor (backgroundStyle options) ->
      (TextGraphics loadImage toNumber parseColor options = inl e
       <-> truthy (fst (TextGraphics_size options)) = true
           /\ truthy (snd (TextGraphics_size options)) = true
           /\ exists src,
                bg_image (dflt (backgroundStyle options) no_background) = Some src
                /\ truthy_str src = true
                /\ loadImage src = inl e)).
Proof.
  unfold TextGraphics.
  destruct (padding4 _ _) as [[[top right] bottom] left].
  destruct (TextGraphics_size options) as [w h]. cbn [fst snd].
  split.
  - destruct (truthy w); [| discriminate]. destruct (truthy h); [| discriminate].
    cbn [andb].
    destruct (drawCtx _ _ _ _ _ _ _) as [e' | calls] eqn:Hbg.
    + intro H; inversion H; subst. repeat split.
      apply drawCtx_inl in Hbg. cbn [dflt] in Hbg. exact Hbg.
    + destruct (drawBorder _ _ _) as [e' | border] eqn:Hborder; [| discriminate].
      intro H; inversion H; subst. repeat split. left.
      apply (drawBorder_inl _ _ _ _ Hborder).
  - intros Hr Hb.
    assert (Hr' : radii_nonnegative
                    (Some (dflt (bs_radius (dflt (borderStyle options) no_border))
                             (Rad1 0)))).
    { destruct (bs_radius (dflt (borderStyle options) no_border)) as [r |];
        [exact Hr | apply Qcle_refl]. }
    assert (Hb' : background_accepted parseColor
                    (Some (dflt (backgroundStyle options) no_background))).
    { unfold background_accepted in *. cbn [dflt].
      destruct (backgroundStyle options); exact Hb. }
    pose proof (drawCtx_inl_accepted loadImage toNumber parseColor w h _ _ e Hr' Hb')
      as Hiff.
    cbn [dflt] in Hiff.
    destruct (drawBorder_accepted w h (Some (dflt (borderStyle options) no_border)) Hr)
      as [border Hborder].
    split.
    + destruct (truthy w); [| discriminate]. destruct (truthy h); [| discriminate].
      cbn [andb].
      destruct (drawCtx _ _ _ _ _ _ _) as [e' | calls].
      * intro H; inversion H; subst. repeat split. apply Hiff. reflexivity.
      * rewrite Hborder. discriminate.
    + intros [Hw [Hh Hex]]. rewrite Hw, Hh. cbn [andb].
      apply Hiff in Hex. rewrite Hex. reflexivity.
Qed.

(** A 100 by 12 box whose image cannot be loaded. *)
Lemma TextGraphics_rejects_iff_witness :
  TextGraphics failing_loader nan_number sample_parser
    (Build_TextGraphicsOptions None None
       (Some (Build_BackgroundStyle None (Some "tile.png"%string) None None))
       None (Some (Px hundred)) (Some (Px twelve)))
  = inl "cannot load tile.png"%string.
Proof.
  apply (proj2 (TextGraphics_rejects_iff failing_loader nan_number sample_parser
                  (Build_TextGraphicsOptions None None
                     (Some (Build_BackgroundStyle None (Some "tile.png"%string) None None))
                     None (Some (Px hundred)) (Some (Px twelve)))
                  "cannot load tile.png"%string)).
  - exact I.
  - exact I.
  - split; [reflexivity |]. split; [reflexivity |].
    exists "tile.png"%string. repeat split.
Defined.

(** ** The outline of the background *)

Lemma path_app_arc_radii (p1 p2 : list PathCmd) :
  arc_radii (p1 ++ p2) = arc_radii p1 ++ arc_radii p2.
Proof.
  induction p1 as [| c p1 IH]; [reflexivity |].
  destruct c; simpl; rewrite ?IH; reflexivity.
Qed.

(** X7.  The background outline has an arc for each corner of non-zero
    radius and for no other: its arcs carry the non-zero radii among
    top-left, top-right, bottom-right, bottom-left, in that order, so it
    never holds an arc of radius 0.  The border path always holds four arcs,
    zero radius or not: in path order their radii are the first, fourth,
    second and third entries of the radius array. *)
Theorem drawCtx_trace_arcs (width height lt rt rb lb : number) :
  arc_radii (drawCtx_trace width height (Rad4 lt rt rb lb))
  = filter truthy [lt; rt; rb; lb]
  /\ Forall (fun r => r <> 0) (arc_radii (drawCtx_trace width height (Rad4 lt rt rb lb)))
  /\ arc_radii (drawBorder_path width height (Rad4 lt rt rb lb)) = [lt; lb; rt; rb].
Proof.
  assert (H : arc_radii (drawCtx_trace width height (Rad4 lt rt rb lb))
              = filter truthy [lt; rt; rb; lb]).
  { unfold drawCtx_trace. cbn [radius4 filter]. rewrite !path_app_arc_radii.
    destruct (truthy lt), (truthy rt), (truthy rb), (truthy lb); reflexivity. }
  split; [exact H |]. split; [| reflexivity].
  rewrite H. apply Forall_forall. intros r Hr.
  apply filter_In in Hr. apply truthy_true_iff, Hr.
Qed.

(** X8.  With the four radii 0 (or no radius given) the background outline
    is the plain rectangle of the box: a move to the origin and three lines
    through (width, 0), (width, height) and (0, height), without any arc. *)
Theorem drawCtx_trace_sharp (width height : number) (radius : Radius) :
  radius4 radius = (0, 0, 0, 0) ->
  drawCtx_trace width height radius
  = [moveTo 0 0; lineTo width 0; lineTo width height; lineTo 0 height].
Proof.
  intro H. unfold drawCtx_trace. rewrite H, truthy_0. cbn [app].
  rewrite !Qcplus_0_l. reflexivity.
Qed.

(** The default radius of [drawCtx]. *)
Lemma drawCtx_trace_sharp_witness :
  drawCtx_trace hundred twelve (Rad1 0)
  = [moveTo 0 0; lineTo hundred 0; lineTo hundred twelve; lineTo 0 twelve].
Proof. apply (drawCtx_trace_sharp hundred twelve (Rad1 0)). reflexivity. Defined.

(** ** Alignment within the measured width *)

Lemma Qc_minus_self (a : number) : a - a = 0.
Proof. ring. Qed.

Lemma Qc_0_div (a : number) : 0 / a = 0.
Proof. unfold Qcdiv. apply Qcmult_0_l. Qed.

Lemma _calculateLeft_fit (a : number) (textAlign : TextAlign) :
  _calculateLeft a a textAlign = 0.
Proof.
  rewrite _calculateLeft_offset. unfold offset.
  destruct textAlign; rewrite ?Qc_minus_self, ?Qc_0_div; reflexivity.
Qed.

Lemma drawText_maxTextLength_fallback (text : list jsstring) (maxTextLength : option number)
    (fontSize letterSpacing : number) :
  text <> [] ->
  maxTextLength = None \/ maxTextLength = Some 0 ->
  exists widest,
    In widest text
    /\ (forall line, In line text -> get_string_width line <= get_string_width widest)
    /\ drawText_maxTextLength text maxTextLength fontSize letterSpacing
       = lineWidth widest fontSize letterSpacing.
Proof.
  intros Htext Hmax.
  destruct (reduce_wider text Htext) as [widest [Hred [Hin Hle]]].
  exists widest. split; [exact Hin |]. split; [exact Hle |].
  unfold drawText_maxTextLength, deepCopy. rewrite Hred. unfold lineWidth.
  destruct Hmax as [-> | ->]; rewrite ?truthy_0; ring.
Qed.

(** X9.  When [drawText] is given no [maxTextLength] (or 0), the text is
    measured against its own widest line: that line starts at the left
    origin under every alignment, and a given non-zero [maxTextLength] is
    taken as it is. *)
Theorem drawText_measured_width (text : list jsstring) (fontSize letterSpacing : number) :
  (forall m, m <> 0 ->
     drawText_maxTextLength text (Some m) fontSize letterSpacing = m)
  /\ (text <> [] ->
      forall maxTextLength, maxTextLength = None \/ maxTextLength = Some 0 ->
      exists widest,
        In widest text
        /\ (forall line, In line text ->
                         get_string_width line <= get_string_width widest)
        /\ forall textAlign,
             _calculateLeft
               (drawText_maxTextLength text maxTextLength fontSize letterSpacing)
               (lineWidth widest fontSize letterSpacing) textAlign = 0).
Proof.
  split.
  - intros m Hm. unfold drawText_maxTextLength.
    apply truthy_true_iff in Hm. rewrite Hm. reflexivity.
  - intros Htext maxTextLength Hmax.
    destruct (drawText_maxTextLength_fallback text maxTextLength fontSize letterSpacing
                Htext Hmax) as [widest [Hin [Hle Heq]]].
    exists widest. split; [exact Hin |]. split; [exact Hle |].
    intro textAlign. rewrite Heq. apply _calculateLeft_fit.
Qed.

(** The lines "a" and "bbb", measured against "bbb". *)
Lemma drawText_measured_width_witness :
  drawText_maxTextLength two_lines (Some hundred) twelve two = hundred
  /\ exists widest,
       In widest two_lines
       /\ (forall line, In line two_lines ->
                        get_string_width line <= get_string_width widest)
       /\ forall textAlign,
            _calculateLeft (drawText_maxTextLength two_lines None twelve two)
              (lineWidth widest twelve two) textAlign = 0.
Proof.
  split.
  - apply (proj1 (drawText_measured_width two_lines twelve two)).
    intro H. apply (f_equal this) in H. discriminate H.
  - apply (proj2 (drawText_measured_width two_lines twelve two)).
    + discriminate.
    + left. reflexivity.
Defined.

Lemma Qc_0_le_inv_two : 0 <= / two.
Proof. unfold Qcle. simpl. discriminate. Qed.

Lemma Qc_minus_nonneg (a b : number) : b <= a -> 0 <= a - b.
Proof. intro H. apply Qcle_minus_iff in H. exact H. Qed.

(** X10.  Without letter spacing and with a non-negative font size, no line
    is wider than the width [drawText] measures for itself, so no line
    starts left of the left origin: the offset of every line is at least 0
    under every alignment. *)
Theorem drawText_no_overflow (text : list jsstring) (fontSize : number)
    (line : jsstring) (textAlign : TextAlign) :
  0 <= fontSize ->
  In line text ->
  let available := drawText_maxTextLength text None fontSize 0 in
  lineWidth line fontSize 0 <= available
  /\ 0 <= _calculateLeft available (lineWidth line fontSize 0) textAlign.
Proof.
  intros Hfs Hin available.
  assert (Htext : text <> []) by (intro E; subst; contradiction).
  destruct (drawText_maxTextLength_fallback text None fontSize 0 Htext
              (or_introl eq_refl)) as [widest [_ [Hle Heq]]].
  assert (Hw : lineWidth line fontSize 0 <= available).
  { unfold available. rewrite Heq. unfold lineWidth.
    rewrite !Qcmult_0_l, !Qcplus_0_r.
    apply Qcmult_le_compat_r; [apply Hle, Hin | exact Hfs]. }
  split; [exact Hw |].
  rewrite _calculateLeft_offset. unfold offset. destruct textAlign.
  - apply Qcle_refl.
  - unfold Qcdiv. rewrite <- (Qcmult_0_l (/ two)).
    apply Qcmult_le_compat_r; [apply Qc_minus_nonneg, Hw | exact Qc_0_le_inv_two].
  - apply Qc_minus_nonneg, Hw.
Qed.

(** The line "a" beside "bbb", right-aligned at font size 12. *)
Lemma drawText_no_overflow_witness :
  lineWidth (line_of_string "a") twelve 0 <= drawText_maxTextLength two_lines None twelve 0
  /\ 0 <= _calculateLeft (drawText_maxTextLength two_lines None twelve 0)
            (lineWidth (line_of_string "a") twelve 0) AlignRight.
Proof.
  apply (drawText_no_overflow two_lines twelve (line_of_string "a") AlignRight).
  - unfold Qcle. simpl. discriminate.
  - left. reflexivity.
Defined.

(** ** The content as the orchestrator reads it *)

Lemma TextGraphics_content_ext loadImage toNumber parseColor
    (options : TextGraphicsOptions)
    (c1 c2 : option Content) :
  TextGraphics_text c1 = TextGraphics_text c2 ->
  TextGraphics loadImage toNumber parseColor (with_content options c1)
  = TextGraphics loadImage toNumber parseColor (with_content options c2).
Proof.
  intro H. unfold TextGraphics, TextGraphics_size, with_content.
  cbn [content borderStyle backgroundStyle fontStyle width height].
  rewrite H. reflexivity.
Qed.

Lemma filter_truthy_line_idem (lines : list jsstring) :
  filter truthy_line (filter truthy_line lines) = filter truthy_line lines.
Proof.
  induction lines as [| l lines IH]; [reflexivity |]. simpl.
  destruct (truthy_line l) eqn:T; simpl; rewrite ?T, IH; reflexivity.
Qed.

(** X11.  Empty lines do not count: rendering an array of lines is rendering
    its non-empty lines.  A single string renders as the array of that one
    string, and an empty string or an empty array as no content at all. *)
Theorem TextGraphics_content_normal loadImage toNumber parseColor
    (options : TextGraphicsOptions) :
  (forall lines,
     TextGraphics loadImage toNumber parseColor (with_content options (Some (Arr lines)))
     = TextGraphics loadImage toNumber parseColor
         (with_content options (Some (Arr (filter truthy_line lines)))))
  /\ (forall s,
        TextGraphics loadImage toNumber parseColor (with_content options (Some (Str s)))
        = TextGraphics loadImage toNumber parseColor (with_content options (Some (Arr [s]))))
  /\ TextGraphics loadImage toNumber parseColor (with_content options (Some (Str [])))
     = TextGraphics loadImage toNumber parseColor (with_content options None)
  /\ TextGraphics loadImage toNumber parseColor (with_content options (Some (Arr [])))
     = TextGraphics loadImage toNumber parseColor (with_content options None).
Proof.
  split; [| split; [| split]].
  - intro lines. apply TextGraphics_content_ext.
    unfold TextGraphics_text, deepCopy. symmetry. apply filter_truthy_line_idem.
  - intro s. apply TextGraphics_content_ext.
    unfold TextGraphics_text, deepCopy. destruct s; reflexivity.
  - apply TextGraphics_content_ext. reflexivity.
  - apply TextGraphics_content_ext. reflexivity.
Qed.

(** ** How the resolved size moves with the styles *)

Lemma get_string_width_nonneg (s : jsstring) : 0 <= get_string_width s.
Proof.
  rewrite get_string_width_sum.
  eapply Qcle_trans; [| apply (sum_widthFactor_bounds (chars s))].
  rewrite <- (Qcmult_0_l (num_of_nat (List.length (chars s)))).
  apply Qcmult_le_compat_r; [exact Qc_0_le_half | apply num_of_nat_nonneg].
Qed.

(** X12.  On an axis requested as "auto", with at least one non-empty line,
    a border of width [bw] makes the box wider, and higher, by exactly
    twice [bw] than no border style does. *)
Theorem border_width_grows_auto_size (options : TextGraphicsOptions)
    (color : option string) (bw : number) (radius : option Radius) :
  TextGraphics_text (content options) <> [] ->
  let bordered :=
    TextGraphics_size
      (with_borderStyle options (Some (Build_BorderStyle color (Some bw) radius))) in
  let plain := TextGraphics_size (with_borderStyle options None) in
  (dflt (width options) Auto = Auto -> fst bordered = fst plain + bw + bw)
  /\ (dflt (height options) Auto = Auto -> snd bordered = snd plain + bw + bw).
Proof.
  intros Hlines bordered plain.
  destruct (reduce_wider _ Hlines) as [widest [Hred _]].
  destruct (padding4_total (dflt (fs_padding (dflt (fontStyle options) no_font)) (Pad1 0)))
    as [top [right [bottom [left Hpad]]]].
  pose proof (padding4_border _ bw _ _ _ _ Hpad) as Hb.
  unfold bordered, plain, TextGraphics_size, with_borderStyle, deepCopy.
  cbn [content borderStyle fontStyle width height dflt bs_width no_border].
  rewrite Hpad, Hb, Hred. split; intro Hauto; rewrite Hauto; cbn [is_auto fst snd].
  - ring.
  - ring.
Qed.

(** "OK" with a border of width 2 is 4 wider and 4 higher. *)
Lemma border_width_grows_auto_size_witness :
  let options :=
    Build_TextGraphicsOptions (Some (Str (line_of_string "OK"))) None None None None None in
  (dflt (width options) Auto = Auto ->
   fst (TextGraphics_size
          (with_borderStyle options (Some (Build_BorderStyle None (Some two) None))))
   = fst (TextGraphics_size (with_borderStyle options None)) + two + two)
  /\ (dflt (height options) Auto = Auto ->
      snd (TextGraphics_size
             (with_borderStyle options (Some (Build_BorderStyle None (Some two) None))))
      = snd (TextGraphics_size (with_borderStyle options None)) + two + two).
Proof.
  apply (border_width_grows_auto_size
           (Build_TextGraphicsOptions (Some (Str (line_of_string "OK"))) None None None
              None None) None two None).
  simpl. discriminate.
Defined.

Lemma Qcmult_le_compat_l_nonneg (a x y : number) : 0 <= a -> x <= y -> a * x <= a * y.
Proof.
  intros Ha Hxy. rewrite (Qcmult_comm a x), (Qcmult_comm a y).
  apply Qcmult_le_compat_r; assumption.
Qed.

Lemma Qcplus_le_compat_r (x y z : number) : x <= y -> x + z <= y + z.
Proof. intro H. apply Qcplus_le_compat; [exact H | apply Qcle_refl]. Qed.

(** X13.  The resolved size never shrinks when the font grows: for two font
    sizes [s1 <= s2] and everything else the same, the resolved width and
    the resolved height at [s1] are at most those at [s2]. *)
Theorem size_monotone_in_font_size (options : TextGraphicsOptions) (s1 s2 : number) :
  s1 <= s2 ->
  fst (TextGraphics_size (with_font_size options s1))
  <= fst (TextGraphics_size (with_font_size options s2))
  /\ snd (TextGraphics_size (with_font_size options s1))
     <= snd (TextGraphics_size (with_font_size options s2)).
Proof.
  intro H. unfold TextGraphics_size, with_font_size.
  cbn [content borderStyle fontStyle width height dflt set_size fs_size fs_padding
         fs_rowGap fs_letterSpacing].
  destruct (padding4 _ _) as [[[top right] bottom] left].
  destruct (reduce wider _) as [widest |]; [| split; apply Qcle_refl].
  cbn [fst snd]. split.
  - destruct (is_auto _); [| apply Qcle_refl].
    do 2 apply Qcplus_le_compat_r.
    apply Qcmult_le_compat_l_nonneg; [apply get_string_width_nonneg | exact H].
  - destruct (is_auto (dflt (height options) Auto)); [| apply Qcle_refl].
    unfold Qcminus. do 3 apply Qcplus_le_compat_r.
    apply Qcmult_le_compat_l_nonneg; [apply num_of_nat_nonneg | exact H].
Qed.

(** "OK" at font sizes 4 and 12. *)
Lemma size_monotone_in_font_size_witness :
  let options :=
    Build_TextGraphicsOptions (Some (Str (line_of_string "OK"))) None None None None None in
  fst (TextGraphics_size (with_font_size options four))
  <= fst (TextGraphics_size (with_font_size options twelve))
  /\ snd (TextGraphics_size (with_font_size options four))
     <= snd (TextGraphics_size (with_font_size options twelve)).
Proof.
  apply (size_monotone_in_font_size
           (Build_TextGraphicsOptions (Some (Str (line_of_string "OK"))) None None None
              None None) four twelve).
  unfold Qcle. simpl. discriminate.
Defined.

(** ** The image pass *)

(** X14.  On a box with a background colour, a loaded image adds one call
    after everything the same box draws without the image: [drawImage], at
    the given position (a single number standing for both coordinates, the
    origin when none is given) and with the resolved size, which is the
    natural size of the image when no size is given.  Where the box without
    the image is rejected by the context, the box with the image is
    rejected with the same error. *)
Theorem drawCtx_image_appended loadImage toNumber parseColor (width height : number)
    (radius : option Radius) (color : BackgroundColor) (src : string) (image : Image)
    (size : option BackgroundSize) (position : option BackgroundPosition) :
  truthy_color (Some color) = true ->
  truthy_str src = true ->
  loadImage src = inr image ->
  (forall base,
     drawCtx loadImage toNumber parseColor width height radius
       (Some (Build_BackgroundStyle (Some color) None size position)) = inr base ->
     exists x y w h,
       drawCtx loadImage toNumber parseColor width height radius
         (Some (Build_BackgroundStyle (Some color) (Some src) size position))
       = inr (base ++ [drawImage image x y w h])
       /\ (x, y) = match position with
                   | Some (Pos2 px py) => (px, py)
                   | Some (Pos1 p) => (p, p)
                   | None => (0, 0)
                   end
       /\ (size = None -> w = Some (img_width image) /\ h = Some (img_height image)))
  /\ (forall e,
        drawCtx loadImage toNumber parseColor width height radius
          (Some (Build_BackgroundStyle (Some color) None size position)) = inl e ->
        drawCtx loadImage toNumber parseColor width height radius
          (Some (Build_BackgroundStyle (Some color) (Some src) size position)) = inl e).
Proof.
  intros Hc Hsrc Hload. unfold drawCtx.
  cbn [dflt bg_color bg_image bg_size bg_position truthy_ostr].
  rewrite Hc, Hsrc, Hload. cbn [negb andb].
  destruct (path_error _) as [e1 |]; [split; [discriminate | intros e H; exact H] |].
  destruct (drawCtx_fill parseColor width height color) as [e2 | fill];
    [split; [discriminate | intros e H; exact H] |].
  split; [| discriminate].
  intros base Hbase. inversion Hbase; subst. clear Hbase.
  unfold drawCtx_image.
  assert (Hpos :
    (if truthy_position position
     then match position with
          | Some (Pos2 px py) => (px, py)
          | Some (Pos1 p) => (p, p)
          | None => (0, 0)
          end
     else (0, 0))
    = match position with
      | Some (Pos2 px py) => (px, py)
      | Some (Pos1 p) => (p, p)
      | None => (0, 0)
      end).
  { destruct position as [[p | px py] |]; cbn [truthy_position]; try reflexivity.
    destruct (truthy p) eqn:T; [reflexivity |].
    apply truthy_false_iff in T. subst p. reflexivity. }
  rewrite Hpos.
  destruct (match position with
            | Some (Pos2 px py) => (px, py)
            | Some (Pos1 p) => (p, p)
            | None => (0, 0)
            end) as [x y].
  destruct (if truthy_size size then _ else _) as [w h] eqn:Hsize.
  exists x, y, w, h. split; [rewrite app_assoc; reflexivity |].
  split; [reflexivity |].
  intro Hnone. subst size. cbn [truthy_size] in Hsize. inversion Hsize. split; reflexivity.
Qed.

(** A loadable tile on the red box, placed at (2, 2) at its natural size. *)
Lemma drawCtx_image_appended_witness :
  exists base x y w h,
    drawCtx sample_loader nan_number sample_parser hundred twelve None
      (Some (Build_BackgroundStyle (Some (Solid "#f00")) None None (Some (Pos1 two))))
    = inr base
    /\ drawCtx sample_loader nan_number sample_parser hundred twelve None
         (Some (Build_BackgroundStyle (Some (Solid "#f00")) (Some "tile.png"%string) None
                  (Some (Pos1 two))))
       = inr (base
              ++ [drawImage (Build_Image "tile.png" (num_of_Z 64) (num_of_Z 32)) x y w h])
    /\ (x, y) = (two, two)
    /\ w = Some (num_of_Z 64) /\ h = Some (num_of_Z 32).
Proof.
  eexists.
  destruct (proj1 (drawCtx_image_appended sample_loader nan_number sample_parser hundred
                     twelve None (Solid "#f00") "tile.png"%string
                     (Build_Image "tile.png" (num_of_Z 64) (num_of_Z 32)) None
                     (Some (Pos1 two)) eq_refl eq_refl eq_refl) _ eq_refl)
    as [x [y [w [h [H1 [H2 H3]]]]]].
  exists x, y, w, h. split; [reflexivity |]. split; [exact H1 |]. split; [exact H2 |].
  apply H3. reflexivity.
Defined.

(** ** The minimal preset: the in-place sort *)

Lemma sort_insert_perm (a : jsstring) (l : list jsstring) :
  Permutation (Rectangle.sort_insert a l) (a :: l).
Proof.
  induction l as [| b l IH]; simpl.
  - apply Permutation_refl.
  - destruct (length b <=? length a)%nat.
    + apply Permutation_refl.
    + eapply perm_trans; [apply perm_skip, IH | apply perm_swap].
Qed.

Lemma Rectangle_sort_perm (l : list jsstring) : Permutation (Rectangle.sort l) l.
Proof.
  induction l as [| a l IH]; simpl.
  - apply perm_nil.
  - eapply perm_trans; [apply sort_insert_perm | apply perm_skip, IH].
Qed.

Lemma sort_insert_sorted (a : jsstring) (l : list jsstring) :
  Sorted longer_eq l -> Sorted longer_eq (Rectangle.sort_insert a l).
Proof.
  induction l as [| b l IH]; intro H; simpl.
  - repeat constructor.
  - destruct (length b <=? length a)%nat eqn:E.
    + constructor; [exact H |]. constructor. apply Nat.leb_le, E.
    + apply Nat.leb_gt in E. inversion H as [| ? ? Hs Hr]; subst.
      constructor; [apply IH, Hs |].
      destruct l as [| c l]; simpl.
      * constructor. unfold longer_eq. lia.
      * destruct (length c <=? length a)%nat.
        -- constructor. unfold longer_eq. lia.
        -- inversion Hr; subst. constructor. assumption.
Qed.

Lemma Rectangle_sort_sorted (l : list jsstring) : Sorted longer_eq (Rectangle.sort l).
Proof.
  induction l as [| a l IH]; simpl; [constructor | apply sort_insert_sorted, IH].
Qed.

Lemma Rectangle_sort_fixed (l : list jsstring) :
  Sorted longer_eq l -> Rectangle.sort l = l.
Proof.
  induction l as [| a l IH]; intro H; [reflexivity |].
  inversion H as [| ? ? Hs Hr]; subst. simpl. rewrite (IH Hs).
  destruct l as [| b l]; [reflexivity |]. simpl.
  inversion Hr; subst. unfold longer_eq in *.
  replace (length b <=? length a)%nat with true by (symmetry; apply Nat.leb_le; assumption).
  reflexivity.
Qed.

Lemma longer_eq_trans : Relations_1.Transitive longer_eq.
Proof. intros a b c. unfold longer_eq. lia. Qed.

(** X15.  The sort of the minimal preset rearranges the lines and loses
    none: its result is a permutation of the array in which no line is
    longer (in code units) than a line before it; the first line is a
    longest one; and the array is left as it was exactly when it was
    already in that order. *)
Theorem Rectangle_sort_spec (lines : list jsstring) :
  Permutation (Rectangle.sort lines) lines
  /\ StronglySorted longer_eq (Rectangle.sort lines)
  /\ (forall first rest line,
        Rectangle.sort lines = first :: rest -> In line lines ->
        (length line <= length first)%nat)
  /\ (Rectangle.sort lines = lines <-> Sorted longer_eq lines).
Proof.
  pose proof (Rectangle_sort_perm lines) as Hperm.
  pose proof (Sorted_StronglySorted longer_eq_trans (Rectangle_sort_sorted lines))
    as Hsorted.
  split; [exact Hperm |]. split; [exact Hsorted |]. split.
  - intros first rest line Hs Hin. rewrite Hs in Hperm, Hsorted.
    apply (Permutation_in _ (Permutation_sym Hperm)) in Hin.
    destruct Hin as [E | Hin]; [subst; lia |].
    inversion Hsorted as [| ? ? _ Hall]; subst.
    rewrite Forall_forall in Hall. apply (Hall line Hin).
  - split.
    + intro E. rewrite <- E. apply Rectangle_sort_sorted.
    + apply Rectangle_sort_fixed.
Qed.

(** The lines "a" and "bbb" are reordered; "bbb" and "a" are not. *)
Lemma Rectangle_sort_spec_witness :
  (length (line_of_string "a") <= length (line_of_string "bbb"))%nat
  /\ Rectangle.sort [line_of_string "bbb"; line_of_string "a"]
     = [line_of_string "bbb"; line_of_string "a"].
Proof.
  split.
  - apply (proj1 (proj2 (proj2 (Rectangle_sort_spec two_lines)))
             (line_of_string "bbb") [line_of_string "a"] (line_of_string "a")).
    + reflexivity.
    + left. reflexivity.
  - apply (proj2 (proj2 (proj2 (proj2 (Rectangle_sort_spec
                                         [line_of_string "bbb"; line_of_string "a"]))))).
    repeat constructor.
Defined.

(** ** The minimal preset: the caller's content and the outcome *)

Lemma rectangle_size_content (options : Rectangle.RectangleOptions) :
  snd (Rectangle.rectangle_size options)
  = match Rectangle.content options with
    | Some (Arr lines) =>
        if is_auto (dflt (Rectangle.width options) Auto)
        then Some (Arr (Rectangle.sort lines))
        else Rectangle.content options
    | _ => Rectangle.content options
    end.
Proof.
  unfold Rectangle.rectangle_size.
  destruct (padding4 _ _) as [[[top right] bottom] left].
  destruct (Rectangle.content options) as [[s | lines] |].
  - cbn [Rectangle.truthy_content].
    destruct (truthy_line s && _); [| reflexivity].
    destruct (is_auto (dflt (Rectangle.width options) Auto)); reflexivity.
  - cbn [Rectangle.truthy_content andb].
    destruct (is_auto (dflt (Rectangle.width options) Auto)) eqn:W; cbn [orb].
    + destruct (Rectangle.sort lines); reflexivity.
    + destruct (is_auto (dflt (Rectangle.height options) Auto)); reflexivity.
  - reflexivity.
Qed.

Lemma rectangle_content_after_size (options : Rectangle.RectangleOptions) :
  Rectangle.content_after (Rectangle.rectangle options)
  = snd (Rectangle.rectangle_size options).
Proof.
  unfold Rectangle.rectangle.
  destruct (padding4 _ _) as [[[top right] bottom] left].
  destruct (Rectangle.rectangle_size options) as [[e | [w h]] content1]; cbn [snd].
  - reflexivity.
  - destruct (truthy w && truthy h); [| reflexivity].
    destruct (Rectangle.drawCtx _ _ _ _); [reflexivity |].
    destruct (Rectangle.drawBorder _ _ _); reflexivity.
Qed.

(** X16.  What [rectangle] does to the caller's content: an array is sorted
    longest line first when the width is "auto", and nothing else is ever
    changed: a single string, an absent content, and any array under a
    numeric width are after the call what they were before it.  Whatever
    the options, an array keeps its lines: the array after the call is a
    permutation of the array before it. *)
Theorem rectangle_content_effect (options : Rectangle.RectangleOptions) :
  Rectangle.content_after (Rectangle.rectangle options)
  = match Rectangle.content options with
    | Some (Arr lines) =>
        if is_auto (dflt (Rectangle.width options) Auto)
        then Some (Arr (Rectangle.sort lines))
        else Rectangle.content options
    | _ => Rectangle.content options
    end
  /\ (forall lines,
        Rectangle.content options = Some (Arr lines) ->
        exists lines',
          Rectangle.content_after (Rectangle.rectangle options) = Some (Arr lines')
          /\ Permutation lines' lines).
Proof.
  rewrite rectangle_content_after_size, rectangle_size_content.
  split; [reflexivity |].
  intros lines Hc. rewrite Hc.
  destruct (is_auto _).
  - exists (Rectangle.sort lines). split; [reflexivity | apply Rectangle_sort_perm].
  - exists lines. split; [reflexivity | apply Permutation_refl].
Qed.

(** The two lines under a numeric width are left alone. *)
Lemma rectangle_content_effect_witness :
  exists lines',
    Rectangle.content_after
      (Rectangle.rectangle
         (Rectangle.Build_RectangleOptions (Some (Arr two_lines)) None None None
            (Some (Px hundred)) None))
    = Some (Arr lines')
    /\ Permutation lines' two_lines.
Proof.
  apply (proj2 (rectangle_content_effect
                  (Rectangle.Build_RectangleOptions (Some (Arr two_lines)) None None None
                     (Some (Px hundred)) None)) two_lines).
  reflexivity.
Defined.

Lemma Rectangle_sort_nil (lines : list jsstring) :
  Rectangle.sort lines = [] -> lines = [].
Proof.
  intro H. pose proof (Rectangle_sort_perm lines) as P. rewrite H in P.
  apply Permutation_nil, P.
Qed.

Lemma rectangle_size_rejects (options : Rectangle.RectangleOptions) (e : error) :
  fst (Rectangle.rectangle_size options) = inl e
  <-> Rectangle.content options = Some (Arr [])
      /\ dflt (Rectangle.width options) Auto = Auto
      /\ e = "TypeError: undefined is not iterable"%string.
Proof.
  unfold Rectangle.rectangle_size.
  destruct (padding4 _ _) as [[[top right] bottom] left].
  destruct (Rectangle.content options) as [[s | lines] |].
  - split; [| intros [H _]; discriminate].
    cbn [Rectangle.truthy_content]. destruct (truthy_line s && _); [| discriminate].
    destruct (is_auto (dflt (Rectangle.width options) Auto)); discriminate.
  - cbn [Rectangle.truthy_content andb].
    destruct (dflt (Rectangle.width options) Auto) as [n |] eqn:W; cbn [is_auto orb].
    + split; [| intros [_ [H _]]; discriminate].
      destruct (is_auto (dflt (Rectangle.height options) Auto)); discriminate.
    + destruct (Rectangle.sort lines) as [| first rest] eqn:S.
      * apply Rectangle_sort_nil in S. subst lines. cbn [fst]. split.
        -- intro H; inversion H. repeat split.
        -- intros [_ [_ ->]]. reflexivity.
      * cbn [fst]. split; [discriminate |]. intros [H _]. inversion H; subst.
        discriminate S.
  - split; [discriminate | intros [H _]; discriminate].
Qed.

Lemma Rectangle_drawCtx_accepted (width height : number) (radius : option Radius)
    (backgroundColor : option string) :
  radii_nonnegative radius ->
  exists background,
    Rectangle.drawCtx width height (Some (dflt radius (Rad1 0))) backgroundColor
    = inr background.
Proof.
  intro H. unfold Rectangle.drawCtx. cbn [dflt].
  rewrite (Rectangle_drawCtx_trace_accepted _ _ _ H). eexists; reflexivity.
Qed.

Lemma Rectangle_drawBorder_accepted (width height : number)
    (borderStyle : option BorderStyle) :
  radii_nonnegative (bs_radius (dflt borderStyle no_border)) ->
  exists border, Rectangle.drawBorder width height borderStyle = inr border.
Proof.
  intro H. unfold Rectangle.drawBorder.
  change (Rectangle.drawBorder_path width height
            (dflt (bs_radius (dflt borderStyle no_border)) (Rad1 0)))
    with (drawBorder_path width height
            (dflt (bs_radius (dflt borderStyle no_border)) (Rad1 0))).
  rewrite (drawBorder_path_accepted _ _ _ H). eexists; reflexivity.
Qed.

Lemma Rectangle_drawCtx_inl (width height : number) (radius : option Radius)
    (backgroundColor : option string) (e : error) :
  Rectangle.drawCtx width height radius backgroundColor = inl e -> e = IndexSizeError.
Proof.
  unfold Rectangle.drawCtx. destruct (path_error _) as [e' |] eqn:P; [| discriminate].
  intro H; inversion H; subst. apply (path_error_value _ _ P).
Qed.

Lemma Rectangle_drawBorder_inl (width height : number) (borderStyle : option BorderStyle)
    (e : error) :
  Rectangle.drawBorder width height borderStyle = inl e -> e = IndexSizeError.
Proof.
  unfold Rectangle.drawBorder. destruct (path_error _) as [e' |] eqn:P; [| discriminate].
  intro H; inversion H; subst. apply (path_error_value _ _ P).
Qed.

(** The outcome of [rectangle] from the outcome of its sizing step. *)
Lemma rectangle_result_inl (options : Rectangle.RectangleOptions) (e : error) :
  Rectangle.result (Rectangle.rectangle options) = inl e ->
  fst (Rectangle.rectangle_size options) = inl e \/ e = IndexSizeError.
Proof.
  unfold Rectangle.rectangle.
  destruct (padding4 _ _) as [[[top right] bottom] left].
  destruct (Rectangle.rectangle_size options) as [[e' | [w h]] content1]; cbn [fst].
  - cbn [Rectangle.result]. intro H; inversion H. left; reflexivity.
  - destruct (truthy w && truthy h); [| discriminate].
    destruct (Rectangle.drawCtx _ _ _ _) as [e1 | background] eqn:B.
    + cbn [Rectangle.result]. intro H; inversion H; subst. right.
      apply (Rectangle_drawCtx_inl _ _ _ _ _ B).
    + destruct (Rectangle.drawBorder _ _ _) as [e2 | border] eqn:D; [| discriminate].
      cbn [Rectangle.result]. intro H; inversion H; subst. right.
      apply (Rectangle_drawBorder_inl _ _ _ _ D).
Qed.

Lemma rectangle_result_accepted (options : Rectangle.RectangleOptions) :
  radii_nonnegative (bs_radius (dflt (Rectangle.borderStyle options) no_border)) ->
  match fst (Rectangle.rectangle_size options) with
  | inl e => Rectangle.result (Rectangle.rectangle options) = inl e
  | inr (w, h) =>
      exists canvas,
        Rectangle.result (Rectangle.rectangle options) = inr canvas
        /\ canvas_width canvas = w /\ canvas_height canvas = h
  end.
Proof.
  intro Hr. unfold Rectangle.rectangle.
  destruct (padding4 _ _) as [[[top right] bottom] left].
  destruct (Rectangle.rectangle_size options) as [[e' | [w h]] content1]; cbn [fst].
  - reflexivity.
  - destruct (truthy w && truthy h); [| eexists; repeat split; reflexivity].
    destruct (Rectangle_drawCtx_accepted w h
                (bs_radius (dflt (Rectangle.borderStyle options) no_border))
                (Some (dflt (Rectangle.backgroundColor options) "#ffffff00"%string)) Hr)
      as [background Hbg].
    rewrite Hbg.
    destruct (Rectangle_drawBorder_accepted w h
                (Some (dflt (Rectangle.borderStyle options) no_border)) Hr)
      as [border Hborder].
    rewrite Hborder. eexists; repeat split; reflexivity.
Qed.

(** X17.  [rectangle] rejects from two sources only: the TypeError of
    measuring the missing first line, when the content is the empty array
    and the width is "auto", and the IndexSizeError of an arc of negative
    radius.  When the radii are not negative it rejects in that one case
    exactly, and every other call resolves to a canvas. *)
Theorem rectangle_rejects_iff (options : Rectangle.RectangleOptions) (e : error) :
  (Rectangle.result (Rectangle.rectangle options) = inl e ->
   (Rectangle.content options = Some (Arr [])
    /\ dflt (Rectangle.width options) Auto = Auto
    /\ e = "TypeError: undefined is not iterable"%string)
   \/ e = IndexSizeError)
  /\ (radii_nonnegative (bs_radius (dflt (Rectangle.borderStyle options) no_border)) ->
      (Rectangle.result (Rectangle.rectangle options) = inl e
       <-> Rectangle.content options = Some (Arr [])
           /\ dflt (Rectangle.width options) Auto = Auto
           /\ e = "TypeError: undefined is not iterable"%string)).
Proof.
  split.
  - intro H. apply rectangle_result_inl in H. destruct H as [H | H]; [left | right; exact H].
    apply rectangle_size_rejects, H.
  - intro Hr. pose proof (rectangle_result_accepted options Hr) as Hacc.
    rewrite <- rectangle_size_rejects.
    destruct (fst (Rectangle.rectangle_size options)) as [e' | [w h]].
    + rewrite Hacc. split; intro H; inversion H; reflexivity.
    + destruct Hacc as [canvas [Hres _]]. rewrite Hres. split; discriminate.
Qed.

(** The empty array under the default width and a radius of 4. *)
Lemma rectangle_rejects_iff_witness :
  Rectangle.result
    (Rectangle.rectangle
       (Rectangle.Build_RectangleOptions (Some (Arr []))
          (Some (Build_BorderStyle None None (Some (Rad1 four)))) None None None None))
  = inl "TypeError: undefined is not iterable"%string.
Proof.
  apply (proj2 (rectangle_rejects_iff
                  (Rectangle.Build_RectangleOptions (Some (Arr []))
                     (Some (Build_BorderStyle None None (Some (Rad1 four)))) None None
                     None None)
                  "TypeError: undefined is not iterable"%string)).
  - unfold radii_nonnegative, Qcle. simpl. discriminate.
  - repeat split.
Defined.

(** A negative radius makes the minimal preset reject with no empty array
    in sight. *)
Example rectangle_negative_radius :
  Rectangle.result
    (Rectangle.rectangle
       (Rectangle.Build_RectangleOptions (Some (Arr two_lines))
          (Some (Build_BorderStyle None None (Some (Rad1 (- (1)))))) None None None None))
  = inl IndexSizeError.
Proof. reflexivity. Qed.

(** X18.  With an array of at least one line, the width "auto" and radii
    that are not negative, the minimal preset resolves and measures a
    longest line (by code units): the canvas width is the width of that
    line times the number read from the font size, plus the left and the
    right padding of the caller, each with the border width added to it. *)
Theorem rectangle_auto_width (options : Rectangle.RectangleOptions)
    (lines : list jsstring) :
  Rectangle.content options = Some (Arr lines) ->
  lines <> [] ->
  dflt (Rectangle.width options) Auto = Auto ->
  radii_nonnegative (bs_radius (dflt (Rectangle.borderStyle options) no_border)) ->
  let font := dflt (Rectangle.fontStyle options) Rectangle.no_font in
  let padding := dflt (Rectangle.fs_padding font) (Pad1 0) in
  let borderWidth := dflt (bs_width (dflt (Rectangle.borderStyle options) no_border)) 0 in
  exists longest canvas,
    In longest lines
    /\ (forall line, In line lines -> (length line <= length longest)%nat)
    /\ Rectangle.result (Rectangle.rectangle options) = inr canvas
    /\ canvas_width canvas
       = Rectangle.get_string_width longest
         * Rectangle.font_size_matches (dflt (Rectangle.fs_size font) "12px"%string)
         + ((padding_left padding + borderWidth) + (padding_right padding + borderWidth)).
Proof.
  intros Hc Hlines Hw Hr font padding borderWidth.
  destruct (Rectangle.sort lines) as [| longest rest] eqn:S;
    [apply Rectangle_sort_nil in S; contradiction |].
  pose proof (Rectangle_sort_perm lines) as Hperm.
  pose proof (Sorted_StronglySorted longer_eq_trans (Rectangle_sort_sorted lines))
    as Hsorted.
  rewrite S in Hperm, Hsorted.
  assert (Hsize : exists h,
    fst (Rectangle.rectangle_size options)
    = inr (Rectangle.get_string_width longest
           * Rectangle.font_size_matches (dflt (Rectangle.fs_size font) "12px"%string)
           + ((padding_left padding + borderWidth) + (padding_right padding + borderWidth)),
           h)).
  { unfold Rectangle.rectangle_size. fold font. fold padding. fold borderWidth.
    rewrite padding4_sides, Hc, Hw. cbn [Rectangle.truthy_content is_auto andb orb].
    rewrite S. cbn [fst]. eexists. reflexivity. }
  destruct Hsize as [h Hsize].
  pose proof (rectangle_result_accepted options Hr) as Hacc. rewrite Hsize in Hacc.
  destruct Hacc as [canvas [Hres [Hwidth _]]].
  exists longest, canvas.
  split; [apply (Permutation_in _ Hperm); left; reflexivity |].
  split; [| split; assumption].
  intros line Hin. apply (Permutation_in _ (Permutation_sym Hperm)) in Hin.
  destruct Hin as [E | Hin]; [subst; lia |].
  inversion Hsorted as [| ? ? _ Hall]; subst.
  rewrite Forall_forall in Hall. apply (Hall line Hin).
Qed.

(** The two lines at font size "14px" with the padding [1, 2, 3, 4] and a
    border of width 2: "bbb" is measured, and the left and right sides
    4 + 2 and 2 + 2 are added. *)
Lemma rectangle_auto_width_witness :
  exists longest canvas,
    In longest two_lines
    /\ (forall line, In line two_lines -> (length line <= length longest)%nat)
    /\ Rectangle.result (Rectangle.rectangle padded_rectangle) = inr canvas
    /\ canvas_width canvas
       = Rectangle.get_string_width longest * Rectangle.font_size_matches "14px"
         + ((four + two) + (two + two)).
Proof.
  apply (rectangle_auto_width padded_rectangle two_lines).
  - reflexivity.
  - discriminate.
  - reflexivity.
  - exact I.
Defined.

(** ** The minimal preset: reading the font size *)

Lemma leading_digits_uint (d : Decimal.uint) (suffix : string) :
  Rectangle.leading_digits suffix = [] ->
  Rectangle.leading_digits (NilEmpty.string_of_uint d ++ suffix)
  = list_ascii_of_string (NilEmpty.string_of_uint d).
Proof.
  intro H. induction d; cbn [NilEmpty.string_of_uint String.append list_ascii_of_string];
    try exact H; cbn [Rectangle.leading_digits];
    match goal with
    | |- (if Rectangle.is_digit ?a then _ else _) = _ =>
        change (Rectangle.is_digit a) with true; cbv iota; rewrite IHd; reflexivity
    end.
Qed.

Lemma match_digits_uint (d : Decimal.uint) (suffix : string) :
  d <> Decimal.Nil ->
  Rectangle.leading_digits suffix = [] ->
  Rectangle.match_digits (NilEmpty.string_of_uint d ++ suffix)
  = Some (list_ascii_of_string (NilEmpty.string_of_uint d)).
Proof.
  intros Hd H. destruct d; [contradiction | ..];
    cbn [NilEmpty.string_of_uint String.append list_ascii_of_string
           Rectangle.match_digits];
    match goal with
    | |- (if Rectangle.is_digit ?a then _ else _) = _ =>
        change (Rectangle.is_digit a) with true; cbv iota;
        rewrite (leading_digits_uint _ _ H); reflexivity
    end.
Qed.

Lemma digits_value_uint (d : Decimal.uint) (acc : nat) :
  fold_left (fun acc d => (acc * 10 + (Z.of_N (N_of_ascii d) - 48))%Z)
    (list_ascii_of_string (NilEmpty.string_of_uint d)) (Z.of_nat acc)
  = Z.of_nat (Nat.of_uint_acc d acc).
Proof.
  revert acc.
  induction d; intro acc;
    cbn [NilEmpty.string_of_uint list_ascii_of_string fold_left Nat.of_uint_acc];
    try reflexivity;
    rewrite <- IHd; f_equal; rewrite Nat.tail_mul_spec;
    match goal with
    | |- context [Z.of_N (N_of_ascii ?a)] =>
        let v := eval vm_compute in (Z.of_N (N_of_ascii a)) in
        change (Z.of_N (N_of_ascii a)) with v
    end; lia.
Qed.

Lemma to_uint_not_Nil (n : nat) : Nat.to_uint n <> Decimal.Nil.
Proof.
  intro H. pose proof (DecimalNat.Unsigned.of_to n) as E. rewrite H in E.
  cbn in E. subst n. discriminate H.
Qed.

Lemma match_digits_skip (prefix s : string) :
  Forall (fun a => Rectangle.is_digit a = false) (list_ascii_of_string prefix) ->
  Rectangle.match_digits (prefix ++ s) = Rectangle.match_digits s.
Proof.
  induction prefix as [| a prefix IH]; intro H; [reflexivity |].
  cbn [list_ascii_of_string] in H. inversion H as [| ? ? Ha Hrest]; subst.
  cbn [String.append Rectangle.match_digits]. rewrite Ha. apply IH, Hrest.
Qed.

Lemma match_digits_none (s : string) :
  Forall (fun a => Rectangle.is_digit a = false) (list_ascii_of_string s) ->
  Rectangle.match_digits s = None.
Proof.
  induction s as [| a s IH]; intro H; [reflexivity |].
  cbn [list_ascii_of_string] in H. inversion H as [| ? ? Ha Hrest]; subst.
  cbn [Rectangle.match_digits]. rewrite Ha. apply IH, Hrest.
Qed.

Lemma nearest_double_exact (z : Z) :
  (0 <= z < 2 ^ 53)%Z -> Rectangle.nearest_double z = z.
Proof.
  intro H. unfold Rectangle.nearest_double.
  assert (Hk : (Z.log2 z - 52 <= 0)%Z).
  { destruct (Z.eq_dec z 0) as [E | E]; [subst; cbn; lia |].
    assert (Z.log2 z < 53)%Z by (apply Z.log2_lt_pow2; lia). lia. }
  apply Z.leb_le in Hk. rewrite Hk. reflexivity.
Qed.

(** X19.  Reading a font size gives back the number written in it, as long
    as a double holds that number exactly: for every natural number [n]
    below 2^53, any text without digits before it and any text not starting
    with a digit after it (as in "12px" or "bold 14px/1.2"), the size is
    read as [n].  A size that holds no digit at all is read as 12. *)
Theorem font_size_matches_decimal (n : nat) (prefix suffix : string) :
  (Z.of_nat n < 2 ^ 53)%Z ->
  Forall (fun a => Rectangle.is_digit a = false) (list_ascii_of_string prefix) ->
  Rectangle.leading_digits suffix = [] ->
  Rectangle.font_size_matches (prefix ++ decimal n ++ suffix) = num_of_nat n
  /\ Rectangle.font_size_matches prefix = twelve.
Proof.
  intros Hn Hp Hs. unfold Rectangle.font_size_matches. split.
  - rewrite (match_digits_skip _ _ Hp). unfold decimal.
    rewrite (match_digits_uint _ _ (to_uint_not_Nil n) Hs).
    unfold Rectangle.digits_value.
    pose proof (digits_value_uint (Nat.to_uint n) 0) as E.
    change (Z.of_nat 0) with 0%Z in E. rewrite E.
    fold (Nat.of_uint (Nat.to_uint n)). rewrite DecimalNat.Unsigned.of_to.
    rewrite nearest_double_exact; [reflexivity | lia].
  - rewrite (match_digits_none _ Hp). reflexivity.
Qed.

(** The size "bold 14px". *)
Lemma font_size_matches_decimal_witness :
  Rectangle.font_size_matches ("bold " ++ decimal 14 ++ "px") = num_of_nat 14
  /\ Rectangle.font_size_matches "bold " = twelve.
Proof.
  apply (font_size_matches_decimal 14 "bold " "px").
  - reflexivity.
  - repeat constructor.
  - reflexivity.
Defined.

(** Beyond 2^53 the digits are rounded to the nearest double: twenty nines
    are read as 10^20, and 2^53 + 1 as 2^53. *)
Example font_size_matches_rounds :
  Rectangle.font_size_matches "99999999999999999999px"
  = num_of_Z 100000000000000000000
  /\ Rectangle.font_size_matches "9007199254740993px" = num_of_Z 9007199254740992.
Proof. split; apply Qc_is_canon; reflexivity. Qed.

(** ** The minimal preset: what is painted *)

Lemma flat_map_singleton {A : Type} (l : list A) : flat_map (fun x => [x]) l = l.
Proof. induction l as [| x l IH]; [reflexivity |]. simpl. rewrite IH. reflexivity. Qed.

Lemma filled_texts_Rectangle_drawCtx (width height : number) (radius : option Radius)
    (backgroundColor : option string) (calls : list CtxCall) :
  Rectangle.drawCtx width height radius backgroundColor = inr calls ->
  filled_texts calls = [].
Proof.
  unfold Rectangle.drawCtx. destruct (path_error _); [discriminate |].
  intro H; inversion H; subst. unfold Rectangle.drawCtx_trace.
  destruct (radius4 _) as [[[lt rt] rb] lb]. reflexivity.
Qed.

Lemma filled_texts_Rectangle_drawBorder (width height : number)
    (borderStyle : option BorderStyle) (calls : list CtxCall) :
  Rectangle.drawBorder width height borderStyle = inr calls ->
  filled_texts calls = [].
Proof.
  unfold Rectangle.drawBorder. destruct (path_error _); [discriminate |].
  intro H; inversion H; subst. reflexivity.
Qed.

Lemma filled_texts_Rectangle_drawText (text : Content)
    (fontStyle : option Rectangle.FontStyle) (top left rowGap : option number) :
  filled_texts (Rectangle.drawText text fontStyle top left rowGap)
  = match text with Arr lines => lines | Str s => [s] end.
Proof.
  unfold Rectangle.drawText. rewrite filled_texts_app. cbn [filled_texts app].
  destruct text as [s | lines]; [reflexivity |].
  rewrite (filled_texts_forEach _ (fun x => [x])); [apply flat_map_singleton |].
  reflexivity.
Qed.

(** X20.  What a successful render of the minimal preset fills: when the
    canvas has a non-zero width and height, each line of the content whole,
    one [fillText] per line, in the order in which the call leaves the
    array (so longest first under an "auto" width), and nothing else; no
    text at all on a canvas of zero width or height. *)
Theorem rectangle_filled_texts (options : Rectangle.RectangleOptions) (canvas : Canvas) :
  Rectangle.result (Rectangle.rectangle options) = inr canvas ->
  filled_texts (canvas_calls canvas)
  = if truthy (canvas_width canvas) && truthy (canvas_height canvas)
    then match Rectangle.content_after (Rectangle.rectangle options) with
         | Some (Arr lines) => lines
         | Some (Str s) => if truthy_line s then [s] else []
         | None => []
         end
    else [].
Proof.
  unfold Rectangle.rectangle.
  destruct (padding4 _ _) as [[[top right] bottom] left].
  destruct (Rectangle.rectangle_size options) as [[e | [w h]] content1];
    [discriminate |].
  destruct (truthy w && truthy h) eqn:T;
    [| cbn [Rectangle.result Rectangle.content_after]; intro H; inversion H; subst;
       cbn [canvas_calls canvas_width canvas_height]; rewrite T; reflexivity].
  destruct (Rectangle.drawCtx _ _ _ _) as [e1 | background] eqn:B; [discriminate |].
  destruct (Rectangle.drawBorder _ _ _) as [e2 | border] eqn:D; [discriminate |].
  cbn [Rectangle.result Rectangle.content_after]; intro H; inversion H; subst;
    cbn [canvas_calls canvas_width canvas_height]; rewrite T.
  rewrite !filled_texts_app, (filled_texts_Rectangle_drawCtx _ _ _ _ _ B),
    (filled_texts_Rectangle_drawBorder _ _ _ _ D). cbn [app].
  destruct content1 as [[s | lines] |]; cbn [Rectangle.truthy_content].
  - destruct (truthy_line s); [| reflexivity].
    apply filled_texts_Rectangle_drawText.
  - apply filled_texts_Rectangle_drawText.
  - reflexivity.
Qed.

(** The two lines are filled longest first. *)
Lemma rectangle_filled_texts_witness :
  exists canvas,
    Rectangle.result (Rectangle.rectangle two_lines_rectangle) = inr canvas
    /\ filled_texts (canvas_calls canvas)
       = if truthy (canvas_width canvas) && truthy (canvas_height canvas)
         then match Rectangle.content_after (Rectangle.rectangle two_lines_rectangle) with
              | Some (Arr lines) => lines
              | Some (Str s) => if truthy_line s then [s] else []
              | None => []
              end
         else [].
Proof.
  eexists. split; [reflexivity |].
  apply (rectangle_filled_texts two_lines_rectangle). reflexivity.
Defined.

(** The line "OK文", painted from x = 0 at font size 12 with letter
    spacing 2: the last glyph is filled at 16 and ends at 28, the width of
    the line. *)
Lemma drawRowText_right_edge_witness :
  exists before after x,
    drawRowText ([79; 75] ++ [25991])%N 0 0 twelve 0 two
    = before ++ fillText [25991]%N x 0 :: after
    /\ after = (if truthy 0 then [strokeText [25991]%N x 0] else [])
    /\ x + twelve * get_char_width [25991]%N
       = 0 + lineWidth ([79; 75] ++ [25991])%N twelve two.
Proof.
  apply (drawRowText_right_edge [79; 75]%N 25991%N 0 0 twelve 0 two).
  repeat constructor.
Defined.

(** X21.  With an array of at least one line, the height "auto" and radii
    that are not negative, the minimal preset resolves and counts every
    element of the array as a row, the empty lines too: the canvas height
    is rows * size + (top padding + bottom padding) + (rows - 1) * rowGap
    with rows the length of the array and each padding that of the caller
    with the border width added to it; no correction is subtracted. *)
Theorem rectangle_auto_height (options : Rectangle.RectangleOptions)
    (lines : list jsstring) :
  Rectangle.content options = Some (Arr lines) ->
  lines <> [] ->
  dflt (Rectangle.height options) Auto = Auto ->
  radii_nonnegative (bs_radius (dflt (Rectangle.borderStyle options) no_border)) ->
  let font := dflt (Rectangle.fontStyle options) Rectangle.no_font in
  let padding := dflt (Rectangle.fs_padding font) (Pad1 0) in
  let borderWidth := dflt (bs_width (dflt (Rectangle.borderStyle options) no_border)) 0 in
  let rows := num_of_nat (List.length lines) in
  exists canvas,
    Rectangle.result (Rectangle.rectangle options) = inr canvas
    /\ canvas_height canvas
       = rows * Rectangle.font_size_matches (dflt (Rectangle.fs_size font) "12px"%string)
         + ((padding_top padding + borderWidth) + (padding_bottom padding + borderWidth))
         + (rows - 1) * dflt (Rectangle.fs_rowGap font) 0.
Proof.
  intros Hc Hlines Hh Hr font padding borderWidth rows.
  assert (Hsize : exists w,
    fst (Rectangle.rectangle_size options)
    = inr (w,
           rows * Rectangle.font_size_matches (dflt (Rectangle.fs_size font) "12px"%string)
           + ((padding_top padding + borderWidth) + (padding_bottom padding + borderWidth))
           + (rows - 1) * dflt (Rectangle.fs_rowGap font) 0)).
  { unfold Rectangle.rectangle_size. fold font. fold padding. fold borderWidth.
    rewrite padding4_sides, Hc, Hh. cbn [Rectangle.truthy_content is_auto andb orb].
    rewrite orb_true_r.
    destruct (is_auto (dflt (Rectangle.width options) Auto)).
    - destruct (Rectangle.sort lines) as [| first rest] eqn:S;
        [apply Rectangle_sort_nil in S; contradiction |].
      cbn [fst]. eexists. f_equal. f_equal. unfold rows.
      rewrite <- (Permutation_length (Rectangle_sort_perm lines)), S. reflexivity.
    - cbn [fst]. eexists. reflexivity. }
  destruct Hsize as [w Hsize].
  pose proof (rectangle_result_accepted options Hr) as Hacc. rewrite Hsize in Hacc.
  destruct Hacc as [canvas [Hres [_ Hheight]]].
  exists canvas. split; assumption.
Qed.

(** The lines "a" and "" at font size "14px" with row gap 2, the padding
    [1, 2, 3, 4] and a border of width 2 are two rows of 14: with the top
    and bottom sides 1 + 2 and 3 + 2 the height is 38. *)
Lemma rectangle_auto_height_witness :
  exists canvas,
    Rectangle.result (Rectangle.rectangle (with_Rectangle_content padded_rectangle
                                             [line_of_string "a"; []]))
    = inr canvas
    /\ canvas_height canvas
       = num_of_nat 2 * Rectangle.font_size_matches "14px"
         + ((1 + two) + (num_of_Z 3 + two))
         + (num_of_nat 2 - 1) * two.
Proof.
  apply (rectangle_auto_height
           (with_Rectangle_content padded_rectangle [line_of_string "a"; []])
           [line_of_string "a"; []]).
  - reflexivity.
  - discriminate.
  - reflexivity.
  - exact I.
Defined.
